(** * myntra.py: extraction of product records from a rendered listing page

    A shallow embedding of [src/myntra.py].  The document tree produced by
    BeautifulSoup is a datatype, the three external collaborators (the
    headless browser, the HTML parser and the uuid generator) are fields of
    an environment record, and the file system together with the calls made
    to the spreadsheet writer form an explicit world threaded through a small
    state-and-exception monad. *)

From Stdlib Require Import String Ascii List Arith Lia.
From stdpp Require Import base option list gmap strings.

Set Warnings "-register-all".
Open Scope string_scope.
Open Scope list_scope.
Open Scope nat_scope.

(** ** Python exceptions and completions *)

Module Py.

(** The exception classes that the program can meet.  All of them derive
    from [Exception]; [UnboundLocalError] derives from [NameError], not from
    [AttributeError]. *)
Inductive exn : Type :=
| AttributeError
| TypeError
| UnboundLocalError
| FileNotFoundError
| WebDriverException.

Definition is_AttributeError (e : exn) : bool :=
  match e with AttributeError => true | _ => false end.

(** Outcome of evaluating an expression: a value or a raised exception. *)
Inductive result (A : Type) : Type :=
| Ok (a : A)
| Raise (e : exn).
Arguments Ok {A} a.
Arguments Raise {A} e.

(** What the functions of the script hand back to their caller: [None],
    the integer [0] or [True]. *)
Inductive value : Type :=
| PyNone
| PyZero
| PyTrue.

(** Truth value of a returned object, as tested by [if result:]. *)
Definition truthy (v : value) : bool :=
  match v with PyTrue => true | _ => false end.

(** [result == 0]: [None == 0] is false, [0 == 0] is true and, since [bool]
    is a subclass of [int], [True == 0] is false. *)
Definition eq_zero (v : value) : bool :=
  match v with PyZero => true | _ => false end.

(** [xs[:n]] for a list [xs] and an integer [n]: a negative stop counts from
    the end of the list and is clamped at the start. *)
Definition slice_to {A} (xs : list A) (n : Z) : list A :=
  if (0 <=? n)%Z then take (Z.to_nat n) xs
  else take (Z.to_nat (Z.of_nat (length xs) + n)) xs.

(** Truth value of an iterator object.  Iterators and generators define
    neither [__bool__] nor [__len__], so they are true whatever they are
    about to yield. *)
Definition iterator_truthy {A} (it : list A) : bool := true.

End Py.
Import Py.

(** ** The document tree *)

(** A node of the tree built by [BeautifulSoup(content, "html.parser")]:
    either a tag or a piece of text.  The value of the multi-valued [class]
    attribute is kept apart from the dictionary of single-valued attributes
    ([src], [href], ...), because the library holds it as a list. *)
Inductive PageElement : Type :=
| Tag (name : string) (class_ : list string) (attrs : gmap string string)
      (contents : list PageElement)
| NavigableString (s : string).

(** [tag.children]: the direct children, text nodes included. *)
Definition children (e : PageElement) : list PageElement :=
  match e with
  | Tag _ _ _ cs => cs
  | NavigableString _ => []
  end.

(** The filter built from [class_=c]: a tag one of whose classes is [c]. *)
Definition has_class (c : string) (e : PageElement) : bool :=
  match e with
  | Tag _ cl _ _ => bool_decide (c ∈ cl)
  | NavigableString _ => false
  end.

(** The filter built from a tag name. *)
Definition has_name (n : string) (e : PageElement) : bool :=
  match e with
  | Tag n' _ _ _ => String.eqb n n'
  | NavigableString _ => false
  end.

(** [tag.find(...)]: the first descendant, in document order, accepted by the
    filter; [None] when there is none.  The tag itself is not a candidate. *)
Fixpoint find (m : PageElement -> bool) (e : PageElement) : option PageElement :=
  match e with
  | NavigableString _ => None
  | Tag _ _ _ cs =>
      (fix scan (l : list PageElement) : option PageElement :=
         match l with
         | [] => None
         | c :: r =>
             if m c then Some c
             else match find m c with
                  | Some t => Some t
                  | None => scan r
                  end
         end) cs
  end.

(** [tag.text]: all the strings below the tag, concatenated. *)
Fixpoint text (e : PageElement) : string :=
  match e with
  | NavigableString s => s
  | Tag _ _ _ cs =>
      (fix cat (l : list PageElement) : string :=
         match l with
         | [] => ""
         | c :: r => text c +:+ cat r
         end) cs
  end.

(** [tag.attrs.get(k)] *)
Definition attrs_get (k : string) (e : PageElement) : option string :=
  match e with
  | Tag _ _ a _ => a !! k
  | NavigableString _ => None
  end.

(** ** Product records, workbooks and the world *)

(** The class names the function is written against, and [url], the global
    that the main block assigns and that the loop body reads when it builds a
    link. *)
Definition products_container_class : string := "results-base".
Definition products_name_class : string := "product-product".
Definition products_price_class : string := "product-discountedPrice".
Definition products_rating_class : string := "product-ratingsContainer".
Definition url : string := "https://www.myntra.com".

(** The dictionary [product_data].  [Image] is whatever [attrs.get("src")]
    gave, which is [None] for an [img] without that attribute. *)
Record ProductRecord : Type := {
  Name : string;
  Image : option string;
  Price : string;
  Rating : string;
  Link : string
}.

(** The value of a worksheet cell: a string, or [None] for an empty cell. *)
Definition cell : Type := option string.

(** A workbook as far as the script touches it: the cells of the active sheet
    column by column (header first) and the display width given to each
    column.  Fonts and alignments are not represented. *)
Record Workbook : Type := {
  columns : list (list cell);
  widths : list nat
}.

(** What a run does to the outside: files written and removed, workbooks
    saved (with the records they were built from). *)
Inductive event : Type :=
| Wrote (path : string)
| Removed (path : string)
| Exported (products : list ProductRecord) (wb : Workbook).

Record World : Type := {
  fs : gmap string string;
  trace : list event
}.

(** The collaborators the script calls but does not define. *)
Record Env : Type := {
  get_html_selenium : string -> result string;
  BeautifulSoup : string -> PageElement;
  uuid4 : string
}.

(** ** The state-and-exception monad *)

Definition M (A : Type) : Type := World -> result A * World.

Definition ret {A} (a : A) : M A := fun w => (Ok a, w).
Definition raise {A} (e : exn) : M A := fun w => (Raise e, w).
Definition bind {A B} (m : M A) (k : A -> M B) : M B :=
  fun w => match m w with
           | (Ok a, w') => k a w'
           | (Raise e, w') => (Raise e, w')
           end.
Definition lift {A} (r : result A) : M A := fun w => (r, w).
Definition effect (f : World -> World) : M unit := fun w => (Ok tt, f w).

(** [try: m except Exception: h] *)
Definition try_except {A} (m : M A) (h : exn -> M A) : M A :=
  fun w => match m w with
           | (Ok a, w') => (Ok a, w')
           | (Raise e, w') => h e w'
           end.

Declare Scope py_scope.
Delimit Scope py_scope with py.
Notation "x <- m ;; k" := (bind m (fun x => k))
  (at level 100, m at next level, right associativity) : py_scope.
Notation "m ;;; k" := (bind m (fun _ => k))
  (at level 100, right associativity) : py_scope.

(** ** [save_to_excel] *)

(** The sheet obtained from [pd.DataFrame(products)] through [to_excel] and
    [load_workbook]: one column per dictionary key, in insertion order, the
    key itself in the header row; no column at all for an empty list.  An
    empty string and a missing value both come back as a cell that is false
    when tested, so the difference between them is not tracked further. *)
Definition DataFrame (products : list ProductRecord) : list (list cell) :=
  match products with
  | [] => []
  | _ :: _ =>
      [ Some "Name" :: map (fun p => Some (Name p)) products;
        Some "Image" :: map Image products;
        Some "Price" :: map (fun p => Some (Price p)) products;
        Some "Rating" :: map (fun p => Some (Rating p)) products;
        Some "Link" :: map (fun p => Some (Link p)) products ]
  end.

(** [if cell.value:] *)
Definition cell_truthy (c : cell) : bool :=
  match c with
  | Some s => negb (String.eqb s "")
  | None => false
  end.

(** [str(cell.value)] *)
Definition str (c : cell) : string :=
  match c with
  | Some s => s
  | None => "None"
  end.

(** The inner loop over the cells of one column, started with the current
    value of [max_length]. *)
Fixpoint max_length (col : list cell) (acc : nat) : nat :=
  match col with
  | [] => acc
  | c :: rest =>
      max_length rest
        (if cell_truthy c then Nat.max acc (String.length (str c)) else acc)
  end.

(** [min(adjusted_width, 50)] with [adjusted_width = max_length + 2]. *)
Definition column_width (col : list cell) : nat :=
  Nat.min (max_length col 0 + 2) 50.

(** The formatting pass: one width per column of the sheet. *)
Definition format_workbook (sheet : list (list cell)) : Workbook :=
  {| columns := sheet; widths := map column_width sheet |}.

Definition log (ev : event) (w : World) : World :=
  {| fs := fs w; trace := trace w ++ [ev] |}.

(** The call of [save_to_excel] is recorded as an event that carries the
    formatted workbook.  The workbook file itself is not entered in [fs],
    and the writer is taken not to fail: an exception raised while writing
    or formatting is not represented. *)
Definition save_to_excel (products : list ProductRecord) : M unit :=
  effect (log (Exported products (format_workbook (DataFrame products)))).

(** ** [clean] and the file operations *)

(** [os.remove] when the path exists, nothing otherwise.  The removal of an
    existing file is taken to succeed: the branch in which [os.remove]
    raises and the function, having caught the exception, leaves the file
    where it is, is not represented. *)
Definition clean (file_path : string) : M unit :=
  effect (fun w =>
    match fs w !! file_path with
    | Some _ => {| fs := delete file_path (fs w);
                   trace := trace w ++ [Removed file_path] |}
    | None => w
    end).

(** [with open(file_path, 'w') as f: f.write(html_content)] *)
Definition write_file (file_path content : string) : M unit :=
  effect (fun w => {| fs := <[file_path := content]> (fs w);
                      trace := trace w ++ [Wrote file_path] |}).

(** [with open(file_path, "r") as f: content = f.read()] *)
Definition read_file (file_path : string) : M string :=
  fun w => match fs w !! file_path with
           | Some content => (Ok content, w)
           | None => (Raise FileNotFoundError, w)
           end.

(** ** [scrape_products] *)

(** What one turn of the [for] loop does with [scrapped_products]. *)
Inductive step : Type :=
| Continue
| Append (product_data : ProductRecord).

(** [x == ""] for a value that is a string or [None]. *)
Definition eq_empty (x : option string) : bool :=
  match x with
  | Some s => String.eqb s ""
  | None => false
  end.

(** The five right-hand sides of the loop body, for a child that is a tag.
    A tag is true when tested, so each condition only asks whether [find]
    gave a tag or [None]. *)
Definition product_name (product : PageElement) : string :=
  match find (has_class products_name_class) product with
  | Some t => text t
  | None => ""
  end.

Definition product_image (product : PageElement) : option string :=
  match find (has_name "picture") product with
  | Some picture =>
      match find (has_name "img") picture with
      | Some img => attrs_get "src" img
      | None => Some ""
      end
  | None => Some ""
  end.

Definition product_price (product : PageElement) : string :=
  match find (has_class products_price_class) product with
  | Some t => text t
  | None => ""
  end.

(** The rating is the only field whose second [find] is not guarded: a
    rating container without a [span] makes [.text] be asked of [None]. *)
Definition product_rating (product : PageElement) : result string :=
  match find (has_class products_rating_class) product with
  | Some t =>
      match find (has_name "span") t with
      | Some span => Ok (text span)
      | None => Raise AttributeError
      end
  | None => Ok ""
  end.

Definition product_link (product : PageElement) : option string :=
  match find (has_name "a") product with
  | Some a => attrs_get "href" a
  | None => Some ""
  end.

(** The test in front of [continue]. *)
Definition skipped (name price : string) (link : option string) : bool :=
  (String.eqb name "" && String.eqb price "" && eq_empty link)
  || eq_empty link.

(** The body of the loop for one child of the container.  A text node is a
    [str]: its [find] is [str.find], which rejects the keyword argument
    [class_] with a [TypeError] on the first line of the body.  Joining the
    address with a [None] link is a [TypeError] too. *)
Definition loop_body (product : PageElement) : result step :=
  match product with
  | NavigableString _ => Raise TypeError
  | Tag _ _ _ _ =>
      match product_rating product with
      | Raise e => Raise e
      | Ok rating =>
          if skipped (product_name product) (product_price product)
               (product_link product)
          then Ok Continue
          else
            match product_link product with
            | None => Raise TypeError
            | Some href =>
                Ok (Append {| Name := product_name product;
                              Image := product_image product;
                              Price := product_price product;
                              Rating := rating;
                              Link := url +:+ "/" +:+ href |})
            end
      end
  end.

(** The [for] loop: the list built so far and, when a turn raised, the
    exception that left the loop. *)
Fixpoint for_products (products : list PageElement)
    (scrapped_products : list ProductRecord)
  : list ProductRecord * option exn :=
  match products with
  | [] => (scrapped_products, None)
  | product :: rest =>
      match loop_body product with
      | Ok Continue => for_products rest scrapped_products
      | Ok (Append product_data) =>
          for_products rest (scrapped_products ++ [product_data])
      | Raise e => (scrapped_products, Some e)
      end
  end.

(** How control leaves the [try] block. *)
Inductive completion : Type :=
| Normal
| Return (v : value)
| Raised (e : exn).

(** The [try] block.  Besides the completion it gives the local variable
    [scrapped_products] as it stands when the block is left: [None] as long
    as the assignment that creates it has not been reached. *)
Definition try_block (soup : PageElement) (file_path : string)
    (products_scrape : Z)
  : World -> option (list ProductRecord) * completion * World :=
  fun w =>
    match find (has_class products_container_class) soup with
    | None => (None, Raised AttributeError, w)
    | Some products_container =>
        let products := children products_container in
        if negb (iterator_truthy products) then
          (None, Return PyZero, snd (clean file_path w))
        else
          let products := slice_to products products_scrape in
          match for_products products [] with
          | (scrapped_products, None) => (Some scrapped_products, Normal, w)
          | (scrapped_products, Some e) =>
              (Some scrapped_products, Raised e, w)
          end
    end.

Local Open Scope py_scope.

(** The statements after the [try] statement. *)
Definition finish (file_path : string)
    (scrapped_products : option (list ProductRecord)) : M value :=
  clean file_path ;;;
  match scrapped_products with
  | None => raise UnboundLocalError
  | Some products => save_to_excel products ;;; ret PyTrue
  end.

(** The function from the point where [soup] has been built. *)
Definition scrape_soup (soup : PageElement) (file_path : string)
    (products_scrape : Z) : M value :=
  fun w =>
    match try_block soup file_path products_scrape w with
    | (scrapped_products, Normal, w') => finish file_path scrapped_products w'
    | (_, Return v, w') => (Ok v, w')
    | (scrapped_products, Raised AttributeError, w') =>
        match scrapped_products with
        | None => (Raise UnboundLocalError, w')
        | Some [] => (Ok PyNone, w')
        | Some (_ :: _) => finish file_path scrapped_products w'
        end
    | (_, Raised _, w') => (Ok PyNone, w')
    end.

Definition scrape_products (env : Env) (file_path : string)
    (products_scrape : Z) : M value :=
  content <- read_file file_path ;;
  scrape_soup (BeautifulSoup env content) file_path products_scrape.

(** ** [scrape] and the final message *)

(** [os.path.join("temp_files", f"{uuid.uuid4()}.html")] *)
Definition temp_path (env : Env) : string :=
  "temp_files/" +:+ uuid4 env +:+ ".html".

Definition scrape (env : Env) (search_url : string) (products_scrape : Z)
  : M value :=
  try_except
    (let file_path := temp_path env in
     html_content <- lift (get_html_selenium env search_url) ;;
     write_file file_path html_content ;;;
     result <- scrape_products env file_path products_scrape ;;
     if negb (truthy result) then ret result else ret PyTrue)
    (fun _ => ret PyNone).

(** The three messages the script can end with. *)
Inductive Outcome : Type :=
| Success
| NoProducts
| Failure.

(** The final [if result: ... elif result == 0: ... else: ...]. *)
Definition report (result : value) : Outcome :=
  if truthy result then Success
  else if eq_zero result then NoProducts
  else Failure.

(** The script from the construction of the search address onwards; on an
    exception that [scrape] lets through there is no message at all. *)
Definition main (env : Env) (search_key : string) (products_scrape : Z)
  : World -> option Outcome * World :=
  fun w =>
    let search_url := url +:+ "/" +:+ search_key in
    match scrape env search_url products_scrape w with
    | (Ok result, w') => (Some (report result), w')
    | (Raise _, w') => (None, w')
    end.

(** ** Reading a run *)

(** The events a run added to the trace it started from. *)
Definition new_events (w w' : World) : list event :=
  drop (length (trace w)) (trace w').

(** The record lists handed to [save_to_excel], call by call. *)
Definition exported (evs : list event) : list (list ProductRecord) :=
  omap (fun ev => match ev with
                  | Exported products _ => Some products
                  | _ => None
                  end) evs.

(** The statuses of the specification, read off what [scrape_products]
    hands back: [True], [0] and [None]; an exception that leaves the
    function is none of the three. *)
Inductive Status : Type :=
| StatusOk
| EmptyContainer
| ParseFailure.

Definition status (r : result value) : option Status :=
  match r with
  | Ok PyTrue => Some StatusOk
  | Ok PyZero => Some EmptyContainer
  | Ok PyNone => Some ParseFailure
  | Raise _ => None
  end.

(** A child from which the loop body makes a record. *)
Definition valid_tile (product : PageElement) : bool :=
  match loop_body product with
  | Ok (Append _) => true
  | _ => false
  end.

(** The width rule in the words of the specification: the text a cell shows
    (nothing for an empty cell), and the longest such text in a column. *)
Definition rendered (c : cell) : string :=
  match c with
  | Some s => s
  | None => ""
  end.

Definition max_rendered_length (col : list cell) : nat :=
  foldr Nat.max 0 (map (fun c => String.length (rendered c)) col).

(** The exclusion rule in the words of the specification, over the values
    the three fields of a child resolve to. *)
Definition excluded (product : PageElement) : Prop :=
  product_link product = Some "" ∨
  (product_name product = "" ∧ product_price product = "" ∧
   product_link product = Some "").

#[global] Instance excluded_dec (product : PageElement) :
  Decision (excluded product).
Proof. unfold excluded. apply _. Defined.

(** The world in which [scrape] calls [scrape_products]: the page has just
    been written to the temporary file. *)
Definition stored (env : Env) (html_content : string) (w : World) : World :=
  snd (write_file (temp_path env) html_content w).

(** ** Sample documents *)

Module Sample.

(** A product tile with every field present. *)
Definition tile (name price rating href : string) : PageElement :=
  Tag "li" ["product-base"] ∅
    [ Tag "div" ["product-ratingsContainer"] ∅
        [ Tag "span" [] ∅ [NavigableString rating] ];
      Tag "a" [] {[ "href" := href ]}
        [ Tag "picture" [] ∅ [ Tag "img" [] {[ "src" := "1.jpg" ]} [] ];
          Tag "h4" ["product-product"] ∅ [NavigableString name];
          Tag "span" ["product-discountedPrice"] ∅
            [NavigableString price] ] ].

(** A child that holds nothing but an anchor. *)
Definition bare_link (href : string) : PageElement :=
  Tag "li" [] ∅ [ Tag "a" [] {[ "href" := href ]} [] ].

(** A child without an anchor, such as an advertisement slot. *)
Definition banner : PageElement :=
  Tag "li" ["product-base"] ∅
    [ Tag "h4" ["product-product"] ∅ [NavigableString "Sale"] ].

(** A tile whose rating container has lost its [span]. *)
Definition broken_rating (href : string) : PageElement :=
  Tag "li" ["product-base"] ∅
    [ Tag "div" ["product-ratingsContainer"] ∅ [];
      Tag "a" [] {[ "href" := href ]} [] ].

(** A page whose results container has the given children. *)
Definition page (cs : list PageElement) : PageElement :=
  Tag "[document]" [] ∅
    [ Tag "html" [] ∅
        [ Tag "body" [] ∅ [ Tag "ul" ["results-base"] ∅ cs ] ] ].

(** A page without a results container. *)
Definition no_results : PageElement :=
  Tag "[document]" [] ∅
    [ Tag "html" [] ∅
        [ Tag "body" [] ∅
            [ Tag "p" ["index-infoBig"] ∅
                [NavigableString "We couldn't find any matches!"] ] ] ].

(** An environment whose browser delivers a page that parses to [soup]. *)
Definition env (soup : PageElement) : Env :=
  {| get_html_selenium := fun _ => Ok "<html>";
     BeautifulSoup := fun _ => soup;
     uuid4 := "3f2b" |}.

Definition fresh : World := {| fs := ∅; trace := [] |}.

Definition four_tiles : list PageElement :=
  [ tile "Shirt" "Rs. 499" "4.2" "shirts/1";
    tile "Kurta" "Rs. 899" "4.0" "kurtas/2";
    tile "Jeans" "Rs. 1299" "3.9" "jeans/3";
    tile "Socks" "Rs. 199" "4.5" "socks/4" ].

(** The record the loop makes from [tile name price rating href]. *)
Definition record (name price rating href : string) : ProductRecord :=
  {| Name := name; Image := Some "1.jpg"; Price := price; Rating := rating;
     Link := url +:+ "/" +:+ href |}.

Definition four_records : list ProductRecord :=
  [ record "Shirt" "Rs. 499" "4.2" "shirts/1";
    record "Kurta" "Rs. 899" "4.0" "kurtas/2";
    record "Jeans" "Rs. 1299" "3.9" "jeans/3";
    record "Socks" "Rs. 199" "4.5" "socks/4" ].

Definition container (cs : list PageElement) : PageElement :=
  Tag "ul" ["results-base"] ∅ cs.

End Sample.

(** ** The main block *)

Module Input.

(** Strings stand for Python strings whose characters have codes below 256;
    a character is read through its code. *)

(** A decimal digit, [0] to [9]. *)
Definition is_decimal (c : ascii) : bool :=
  (48 <=? nat_of_ascii c) && (nat_of_ascii c <=? 57).

(** A character that [str.isdigit] accepts: a decimal digit or one of the
    superscripts two, three and one (codes 178, 179 and 185). *)
Definition is_digit (c : ascii) : bool :=
  is_decimal c || (nat_of_ascii c =? 178) || (nat_of_ascii c =? 179)
  || (nat_of_ascii c =? 185).

Fixpoint all_chars (p : ascii -> bool) (s : string) : bool :=
  match s with
  | EmptyString => true
  | String c rest => p c && all_chars p rest
  end.

(** [s.isdigit()]: at least one character, and digits only. *)
Definition isdigit (s : string) : bool :=
  negb (String.eqb s "") && all_chars is_digit s.

(** The number read from decimal digits, most significant first. *)
Fixpoint decimal_value (s : string) (acc : Z) : Z :=
  match s with
  | EmptyString => acc
  | String c rest =>
      decimal_value rest (10 * acc + Z.of_nat (nat_of_ascii c - 48))
  end.

(** [int(s)] for a string that passed [isdigit]: [None] stands for the
    [ValueError] raised on a digit that is not decimal and, in interpreters
    that limit the conversion ([max_str_digits], 4300 by default since
    Python 3.11), on a string with more digits than the limit. *)
Definition int (max_str_digits : option nat) (s : string) : option Z :=
  if negb (all_chars is_decimal s) then None
  else
    match max_str_digits with
    | Some limit =>
        if limit <? String.length s then None else Some (decimal_value s 0)
    | None => Some (decimal_value s 0)
    end.

(** The four ways the block ends with [quit()] before any scraping. *)
Inductive Rejection : Type :=
| NoSearchKey
| NumericSearchKey
| CountNotInteger
| CountBelowOne.

(** How the script ends: rejected input, the uncaught [ValueError] of
    [int], or the final message of a run. *)
Inductive Ending : Type :=
| Quit (why : Rejection)
| UncaughtValueError
| Finished (message : option Outcome).

(** The count the second prompt leads to. *)
Inductive Count : Type :=
| Chosen (products_scrape : Z)
| Refused (why : Rejection)
| Crashed.

Definition read_count (max_str_digits : option nat) (products_scrape : string)
  : Count :=
  if negb (String.eqb products_scrape "") then
    if negb (isdigit products_scrape) then Refused CountNotInteger
    else
      match int max_str_digits products_scrape with
      | None => Crashed
      | Some n => if (n <? 1)%Z then Refused CountBelowOne else Chosen n
      end
  else Chosen 10.

(** The block under [if __name__ == "__main__":], given the two lines typed
    at the prompts.  The second line is only looked at once the first has
    been accepted.  The directory made by [os.makedirs] is not represented:
    the world holds files, not directories. *)
Definition script (max_str_digits : option nat) (env : Env)
    (search_key products_scrape : string) : World -> Ending * World :=
  fun w =>
    if String.eqb search_key "" then (Quit NoSearchKey, w)
    else if isdigit search_key then (Quit NumericSearchKey, w)
    else
      match read_count max_str_digits products_scrape with
      | Refused why => (Quit why, w)
      | Crashed => (UncaughtValueError, w)
      | Chosen n =>
          let '(message, w') := main env search_key n w in
          (Finished message, w')
      end.

End Input.

(** ** [get_html_selenium] *)

Module Selenium.

(** The browser as the function sees it.  [page] is what the session shows
    at a moment; scrolling and the passing of time turn one page into
    another.  [navigate] stands for starting the session and [driver.get]:
    [None] when either raises. *)
Record Driver : Type := {
  page : Type;
  duration : Type;
  one_second : duration;
  navigate : string -> option page;
  scrollHeight : page -> Z;
  scrollBy : Z -> page -> page;
  sleep : duration -> page -> page;
  page_source : page -> string
}.

(** [len(range(0, stop, step))]; [None] for the [ValueError] of a zero
    step. *)
Definition range_len (stop step : Z) : option nat :=
  if (step =? 0)%Z then None
  else if (0 <? step)%Z then Some (Z.to_nat ((stop + step - 1) / step))
  else Some (Z.to_nat ((- stop - step - 1) / (- step))).

(** What leaves the function. *)
Inductive Fetch : Type :=
| Fetched (page_source : string)
| NavigationFailed
| ZeroStep.

Section Loop.

Context (d : Driver) (scroll_pause : duration d) (scroll_step : Z).

(** The [for] loop of one pass: so many times scroll, then pause. *)
Fixpoint scroll_pass (turns : nat) (p : page d) : page d :=
  match turns with
  | O => p
  | S turns =>
      scroll_pass turns (sleep d scroll_pause (scrollBy d scroll_step p))
  end.

(** The [while True] loop, cut after [fuel] passes: [None] when the passes
    allowed were not enough to leave it. *)
Fixpoint scroll_loop (fuel : nat) (last_height : Z) (p : page d)
  : option (option (page d)) :=
  match fuel with
  | O => None
  | S fuel =>
      match range_len last_height scroll_step with
      | None => Some None
      | Some turns =>
          let p1 := sleep d (one_second d) (scroll_pass turns p) in
          let new_height := scrollHeight d p1 in
          if (new_height =? last_height)%Z then Some (Some p1)
          else scroll_loop fuel new_height p1
      end
  end.

Definition get_html_selenium (fuel : nat) (url : string) : option Fetch :=
  match navigate d url with
  | None => Some NavigationFailed
  | Some p =>
      match scroll_loop fuel (scrollHeight d p) p with
      | None => None
      | Some None => Some ZeroStep
      | Some (Some p') => Some (Fetched (page_source d p'))
      end
  end.

End Loop.

(** A page of [content] pixels that shows [loaded] of them and loads up to
    [chunk] more whenever the view has been scrolled to the bottom and the
    script sleeps. *)
Record lazy_page : Type := {
  loaded : Z;
  position : Z
}.

Definition lazy_driver (content chunk : Z) : Driver :=
  {| page := lazy_page;
     duration := unit;
     one_second := tt;
     navigate := fun _ => Some {| loaded := Z.min content chunk;
                                  position := 0 |};
     scrollHeight := loaded;
     scrollBy := fun dy p =>
       {| loaded := loaded p;
          position := Z.max 0 (Z.min (loaded p) (position p + dy)) |};
     sleep := fun _ p =>
       if (loaded p <=? position p)%Z
       then {| loaded := Z.min content (loaded p + chunk);
               position := position p |}
       else p;
     page_source := fun p =>
       if (loaded p =? content)%Z then "<html>all</html>"
       else "<html>part</html>" |}.

(** A page that is one pixel taller after every pause. *)
Definition endless_driver : Driver :=
  {| page := Z;
     duration := unit;
     one_second := tt;
     navigate := fun _ => Some 1000%Z;
     scrollHeight := fun h => h;
     scrollBy := fun _ h => h;
     sleep := fun _ h => (h + 1)%Z;
     page_source := fun _ => "<html>" |}.

End Selenium.

(** ** The name of the exported file *)

Module Timestamp.

(** The fields of [datetime.now()] that the file name uses. *)
Record datetime : Type := {
  year : N;
  month : N;
  day : N;
  hour : N;
  minute : N;
  second : N
}.

(** A date and time of day as the clock gives them, with a year of four
    digits (for shorter years the platforms disagree on what [%Y] prints).
    The second may be 60, as the library's documentation allows. *)
Definition valid (t : datetime) : Prop :=
  (1000 <= year t <= 9999 ∧ 1 <= month t <= 12 ∧ 1 <= day t <= 31 ∧
   hour t <= 23 ∧ minute t <= 59 ∧ second t <= 60)%N.

(** The character of the last decimal digit of a number. *)
Definition digit (n : N) : ascii := ascii_of_N (48 + n mod 10).

(** Two and four digits, padded with zeros. *)
Definition pad2 (n : N) : string :=
  String (digit (n / 10)) (String (digit n) "").

Definition pad4 (n : N) : string :=
  String (digit (n / 1000)) (String (digit (n / 100)) (pad2 n)).

(** [strftime("%Y%m%d_%H%M%S")] *)
Definition strftime (t : datetime) : string :=
  pad4 (year t) +:+ pad2 (month t) +:+ pad2 (day t) +:+ "_" +:+
  pad2 (hour t) +:+ pad2 (minute t) +:+ pad2 (second t).

(** [f"scraped_products_{timestamp}.xlsx"] *)
Definition file_name (now : datetime) : string :=
  "scraped_products_" +:+ strftime now +:+ ".xlsx".

End Timestamp.

(** * Properties *)

(** ** The loop *)

Lemma for_products_app (l1 l2 : list PageElement) (acc : list ProductRecord) :
  for_products (l1 ++ l2) acc =
  match for_products l1 acc with
  | (acc', None) => for_products l2 acc'
  | (acc', Some e) => (acc', Some e)
  end.
Proof.
  revert acc. induction l1 as [|c l1 IH]; intros acc; simpl; [done|].
  destruct (loop_body c) as [[|r]|e]; auto.
Qed.

(** The list that leaves the loop is the list that entered it followed by
    the records of some of the children, in the order of the children. *)
Lemma for_products_kept (l : list PageElement) (acc acc' : list ProductRecord)
    (e : option exn) :
  for_products l acc = (acc', e) →
  ∃ kept recs,
    acc' = acc ++ recs ∧ kept `sublist_of` l ∧
    Forall2 (fun c r => loop_body c = Ok (Append r)) kept recs.
Proof.
  revert acc. induction l as [|c l IH]; intros acc; simpl.
  - intros [= <- <-]. exists [], []. rewrite app_nil_r. repeat constructor.
  - destruct (loop_body c) as [[|r]|x] eqn:Hc.
    + intros (kept & recs & -> & Hs & Hf)%IH.
      exists kept, recs. split_and!; [done| by apply sublist_cons |done].
    + intros (kept & recs & -> & Hs & Hf)%IH.
      exists (c :: kept), (r :: recs). rewrite <- app_assoc. simpl.
      split_and!; [done| by apply sublist_skip |by constructor].
    + intros [= <- <-]. exists [], []. rewrite app_nil_r.
      split_and!; [done| apply sublist_nil_l |constructor].
Qed.

Lemma for_products_length (l : list PageElement) (acc' : list ProductRecord)
    (e : option exn) :
  for_products l [] = (acc', e) → length acc' ≤ length l.
Proof.
  intros (kept & recs & -> & Hs & Hf)%for_products_kept. simpl.
  rewrite <- (Forall2_length _ _ _ Hf). by apply sublist_length.
Qed.

Lemma slice_to_sublist {A} (xs : list A) (n : Z) : slice_to xs n `sublist_of` xs.
Proof. unfold slice_to. destruct (0 <=? n)%Z; apply sublist_take. Qed.

Lemma slice_to_length {A} (xs : list A) (n : Z) :
  (0 <= n)%Z → length (slice_to xs n) ≤ Z.to_nat n.
Proof.
  intros Hn. unfold slice_to. destruct (Z.leb_spec 0 n); [|lia].
  rewrite length_take. lia.
Qed.

(** ** One child *)

Lemma eq_empty_true (x : option string) : eq_empty x = true ↔ x = Some "".
Proof.
  destruct x as [s|]; simpl; [|done].
  rewrite String.eqb_eq. split; [by intros ->|by intros [= ->]].
Qed.

Lemma skipped_excluded (product : PageElement) :
  skipped (product_name product) (product_price product)
    (product_link product) = true ↔ excluded product.
Proof.
  unfold skipped, excluded.
  rewrite orb_true_iff, !andb_true_iff, !String.eqb_eq, !eq_empty_true.
  tauto.
Qed.

(** A turn of the loop that raises nothing either skips the child or appends
    its record. *)
Lemma loop_body_continue (product : PageElement) :
  loop_body product = Ok Continue → excluded product.
Proof.
  unfold loop_body. destruct product as [nm cl atts cs|s]; [|done].
  destruct (product_rating _) as [rating|e]; [|done].
  destruct (skipped _ _ _) eqn:Hs.
  - intros _. by apply skipped_excluded.
  - by destruct (product_link _).
Qed.

Lemma loop_body_append (product : PageElement) (r : ProductRecord) :
  loop_body product = Ok (Append r) →
  ¬ excluded product ∧
  ∃ a href rating,
    find (has_name "a") product = Some a ∧ attrs_get "href" a = Some href ∧
    href ≠ "" ∧ product_rating product = Ok rating ∧
    r = {| Name := product_name product; Image := product_image product;
           Price := product_price product; Rating := rating;
           Link := url +:+ "/" +:+ href |}.
Proof.
  unfold loop_body. destruct product as [nm cl atts cs|s]; [|done].
  destruct (product_rating _) as [rating|e] eqn:Hr; [|done].
  destruct (skipped _ _ _) eqn:Hs; [done|].
  assert (Hne : ¬ excluded (Tag nm cl atts cs)).
  { rewrite <- skipped_excluded, Hs. done. }
  destruct (product_link _) as [href|] eqn:Hl; [|done].
  intros [= <-]. split; [done|].
  unfold product_link in Hl.
  destruct (find (has_name "a") _) as [a|] eqn:Ha.
  - exists a, href, rating. split_and!; try done.
    intros ->. apply Hne. left. unfold product_link. by rewrite Ha.
  - injection Hl as <-. exfalso. apply Hne. left.
    unfold product_link. by rewrite Ha.
Qed.

(** For a child all of whose fields resolve, skipping is the exclusion rule. *)
Lemma loop_body_continue_iff (product : PageElement) (rating : string) :
  (∃ nm cl atts cs, product = Tag nm cl atts cs) →
  product_rating product = Ok rating →
  loop_body product = Ok Continue ↔ excluded product.
Proof.
  intros (nm & cl & atts & cs & ->) Hr. split; [apply loop_body_continue|].
  intros Hex%skipped_excluded. unfold loop_body. by rewrite Hr, Hex.
Qed.

(** The children the loop got through, and among them the ones it kept:
    exactly those the exclusion rule lets pass. *)
Lemma for_products_filter (l : list PageElement) (acc acc' : list ProductRecord)
    (e : option exn) :
  for_products l acc = (acc', e) →
  ∃ examined rest recs,
    l = examined ++ rest ∧ acc' = acc ++ recs ∧ (e = None → rest = []) ∧
    Forall2 (fun c r => loop_body c = Ok (Append r))
      (filter (fun c => ¬ excluded c) examined) recs.
Proof.
  revert acc. induction l as [|c l IH]; intros acc; simpl.
  - intros [= <- <-]. exists [], [], [].
    split_and!; [done|by rewrite app_nil_r|done|constructor].
  - destruct (loop_body c) as [[|r]|x] eqn:Hc.
    + intros (examined & rest & recs & -> & -> & He & Hf)%IH.
      exists (c :: examined), rest, recs. split_and!; try done.
      rewrite filter_cons_False; [done|].
      intros Hn. apply Hn. by apply loop_body_continue.
    + intros (examined & rest & recs & -> & -> & He & Hf)%IH.
      exists (c :: examined), rest, (r :: recs).
      rewrite <- app_assoc. split_and!; try done.
      rewrite filter_cons_True; [by constructor|].
      by apply loop_body_append in Hc as [? _].
    + intros [= <- <-]. exists [], (c :: l), [].
      split_and!; [done|by rewrite app_nil_r|done|constructor].
Qed.

(** ** The statements around the loop *)

Lemma new_events_app (w w' : World) (evs : list event) :
  trace w' = trace w ++ evs → new_events w w' = evs.
Proof. intros Ht. unfold new_events. rewrite Ht. apply drop_app_length. Qed.

Lemma clean_fs (p : string) (w : World) : fs (snd (clean p w)) !! p = None.
Proof.
  unfold clean, effect. simpl. destruct (fs w !! p) eqn:Hp; simpl; [|done].
  apply lookup_delete_eq.
Qed.

Lemma clean_trace (p : string) (w : World) :
  trace (snd (clean p w)) =
  trace w ++ match fs w !! p with Some _ => [Removed p] | None => [] end.
Proof.
  unfold clean, effect. simpl. destruct (fs w !! p); simpl; [done|].
  by rewrite app_nil_r.
Qed.

Lemma finish_run (p : string) (acc : list ProductRecord) (w : World) :
  finish p (Some acc) w =
  (Ok PyTrue,
   log (Exported acc (format_workbook (DataFrame acc))) (snd (clean p w))).
Proof. reflexivity. Qed.

Lemma finish_trace (p : string) (acc : list ProductRecord) (w : World) :
  trace (snd (finish p (Some acc) w)) =
  trace w ++ match fs w !! p with Some _ => [Removed p] | None => [] end
          ++ [Exported acc (format_workbook (DataFrame acc))].
Proof.
  rewrite finish_run. unfold log. cbn [snd trace].
  rewrite clean_trace. by rewrite <- app_assoc.
Qed.

Lemma finish_exported (p : string) (acc : list ProductRecord) (w : World) :
  exported (new_events w (snd (finish p (Some acc) w))) = [acc].
Proof.
  rewrite (new_events_app _ _ _ (finish_trace p acc w)).
  by destruct (fs w !! p).
Qed.

(** With a container in the page, the function is decided by the loop over
    the sliced children. *)
Lemma scrape_soup_present (soup c : PageElement) (p : string) (n : Z)
    (w : World) :
  find (has_class products_container_class) soup = Some c →
  scrape_soup soup p n w =
  match for_products (slice_to (children c) n) [] with
  | (acc, None) => finish p (Some acc) w
  | (acc, Some e) =>
      if is_AttributeError e && negb (bool_decide (acc = []))
      then finish p (Some acc) w
      else (Ok PyNone, w)
  end.
Proof.
  intros Hc. unfold scrape_soup, try_block. rewrite Hc. simpl.
  destruct (for_products _ _) as [acc [e|]]; [|done].
  destruct e, acc; reflexivity.
Qed.

(** Without one, the handler of [AttributeError] reads a variable that was
    never assigned. *)
Lemma scrape_soup_absent (soup : PageElement) (p : string) (n : Z) (w : World) :
  find (has_class products_container_class) soup = None →
  scrape_soup soup p n w = (Raise UnboundLocalError, w).
Proof. intros Hc. unfold scrape_soup, try_block. by rewrite Hc. Qed.

Lemma scrape_products_stored (env : Env) (html : string) (n : Z) (w : World) :
  scrape_products env (temp_path env) n (stored env html w) =
  scrape_soup (BeautifulSoup env html) (temp_path env) n (stored env html w).
Proof.
  unfold scrape_products, bind, read_file, stored, write_file, effect. simpl.
  by rewrite lookup_insert_eq.
Qed.

Lemma main_run (env : Env) (key html : string) (n : Z) (w : World) :
  get_html_selenium env (url +:+ "/" +:+ key) = Ok html →
  main env key n w =
  match scrape_products env (temp_path env) n (stored env html w) with
  | (Ok v, w') => (Some (report v), w')
  | (Raise _, w') => (Some Failure, w')
  end.
Proof.
  intros Hget. unfold main, scrape, try_except, bind, lift. rewrite Hget.
  unfold stored. simpl.
  destruct (scrape_products _ _ _ _) as [[v|e] w']; [|done].
  by destruct v.
Qed.

Lemma stored_trace (env : Env) (html : string) (w : World) :
  trace (stored env html w) = trace w ++ [Wrote (temp_path env)].
Proof. reflexivity. Qed.

(** The events of a whole run, from the events of the extraction in it. *)
Lemma exported_after_store (env : Env) (html : string) (w w' : World)
    (evs : list event) :
  trace w' = trace (stored env html w) ++ evs →
  exported (new_events w w') = exported evs.
Proof.
  intros Ht. erewrite new_events_app; last first.
  { rewrite Ht, stored_trace, <- app_assoc. reflexivity. }
  reflexivity.
Qed.

(** ** A page without the results container *)

(** C1, counterexample.  On the page [Sample.no_results], which holds no
    element of class [results-base], extraction does not end as
    [EmptyContainer] and the run is not reported as [NoProducts]: the claim
    fails at this input. *)
Lemma absent_container_counterexample :
  find (has_class products_container_class) Sample.no_results = None ∧
  status (fst (scrape_products (Sample.env Sample.no_results)
                 (temp_path (Sample.env Sample.no_results)) 10
                 (stored (Sample.env Sample.no_results) "<html>"
                    Sample.fresh)))
    ≠ Some EmptyContainer ∧
  fst (main (Sample.env Sample.no_results) "shoes" 10 Sample.fresh)
    ≠ Some NoProducts.
Proof. split_and!; [reflexivity|vm_compute; discriminate..]. Qed.

(** C1, as amended.  For every page without an element of class
    [results-base], extraction ends neither as [EmptyContainer] nor as [Ok]
    and hands nothing to the exporter, and the run is reported as
    [Failure]. *)
Theorem absent_container_is_failure (env : Env) (key html : string) (n : Z)
    (w : World) :
  get_html_selenium env (url +:+ "/" +:+ key) = Ok html →
  find (has_class products_container_class) (BeautifulSoup env html) = None →
  let extraction :=
    scrape_products env (temp_path env) n (stored env html w) in
  status (fst extraction) ≠ Some EmptyContainer ∧
  status (fst extraction) ≠ Some StatusOk ∧
  exported (new_events (stored env html w) (snd extraction)) = [] ∧
  fst (main env key n w) = Some Failure ∧
  exported (new_events w (snd (main env key n w))) = [].
Proof.
  intros Hget Habsent extraction.
  assert (Hex : extraction = (Raise UnboundLocalError, stored env html w)).
  { unfold extraction. rewrite scrape_products_stored.
    by apply scrape_soup_absent. }
  rewrite (main_run _ _ _ _ _ Hget). fold extraction. rewrite Hex. simpl.
  split_and!; try done.
  - by rewrite (new_events_app _ _ []); [|rewrite app_nil_r].
  - by rewrite (exported_after_store env html w _ []); [|rewrite app_nil_r].
Qed.

Lemma absent_container_is_failure_witness :
  let env := Sample.env Sample.no_results in
  let extraction :=
    scrape_products env (temp_path env) 10 (stored env "<html>" Sample.fresh) in
  status (fst extraction) ≠ Some EmptyContainer ∧
  status (fst extraction) ≠ Some StatusOk ∧
  exported (new_events (stored env "<html>" Sample.fresh) (snd extraction))
    = [] ∧
  fst (main env "shoes" 10 Sample.fresh) = Some Failure ∧
  exported (new_events Sample.fresh (snd (main env "shoes" 10 Sample.fresh)))
    = [].
Proof.
  exact (absent_container_is_failure (Sample.env Sample.no_results)
           "shoes" "<html>" 10 Sample.fresh eq_refl eq_refl).
Defined.

(** ** A results container without children *)

(** C4, at the failing input.  For the page whose results container has no
    child, the guard on the iterator lets the run through: the empty list is
    handed to the exporter and the run is reported as [Success]. *)
Theorem empty_container_is_exported :
  let env := Sample.env (Sample.page []) in
  find (has_class products_container_class) (Sample.page [])
    = Some (Tag "ul" ["results-base"] ∅ []) ∧
  status (fst (scrape_products env (temp_path env) 10
                 (stored env "<html>" Sample.fresh))) = Some StatusOk ∧
  fst (main env "shoes" 10 Sample.fresh) = Some Success ∧
  exported (new_events Sample.fresh (snd (main env "shoes" 10 Sample.fresh)))
    = [[]].
Proof. vm_compute. done. Qed.

(** ** The temporary file *)

(** C5, at the failing inputs.  When the page has no results container, and
    also when the first child has a rating container without a [span], the
    run is reported as [Failure] and the temporary file is still in the file
    system afterwards: no removal took place. *)
Theorem failed_run_keeps_temporary_file :
  let leaves_file (soup : PageElement) :=
    let env := Sample.env soup in
    let run := main env "shoes" 10 Sample.fresh in
    fst run = Some Failure ∧
    fs (snd run) !! temp_path env = Some "<html>" ∧
    trace (snd run) = [Wrote (temp_path env)] in
  leaves_file Sample.no_results ∧
  leaves_file (Sample.page [Sample.broken_rating "shirts/1"]).
Proof. vm_compute. done. Qed.

(** The two ways a run with a container in the page can end. *)
Lemma run_finish (env : Env) (key html : string) (n : Z) (w : World)
    (acc : list ProductRecord) :
  get_html_selenium env (url +:+ "/" +:+ key) = Ok html →
  scrape_products env (temp_path env) n (stored env html w) =
    finish (temp_path env) (Some acc) (stored env html w) →
  fst (main env key n w) = Some Success ∧
  exported (new_events w (snd (main env key n w))) = [acc].
Proof.
  intros Hget Hex. rewrite (main_run _ _ _ _ _ Hget), Hex.
  pose proof (finish_trace (temp_path env) acc (stored env html w)) as Ht.
  rewrite finish_run in *. cbn [fst snd] in *. split; [done|].
  erewrite exported_after_store; [|exact Ht].
  by destruct (fs _ !! _).
Qed.

Lemma run_none (env : Env) (key html : string) (n : Z) (w : World) :
  get_html_selenium env (url +:+ "/" +:+ key) = Ok html →
  scrape_products env (temp_path env) n (stored env html w) =
    (Ok PyNone, stored env html w) →
  fst (main env key n w) = Some Failure ∧
  exported (new_events w (snd (main env key n w))) = [].
Proof.
  intros Hget Hex. rewrite (main_run _ _ _ _ _ Hget), Hex.
  cbn [fst snd]. split; [done|].
  by rewrite (exported_after_store env html w _ []); [|rewrite app_nil_r].
Qed.

(** What reaches the exporter is the list the loop built over the sliced
    children of the container, and the function then answers [True]. *)
Lemma scrape_products_exports (env : Env) (p : string) (n : Z) (w : World)
    (products : list ProductRecord) :
  products ∈ exported (new_events w (snd (scrape_products env p n w))) →
  ∃ content c e,
    fs w !! p = Some content ∧
    find (has_class products_container_class) (BeautifulSoup env content)
      = Some c ∧
    for_products (slice_to (children c) n) [] = (products, e) ∧
    fst (scrape_products env p n w) = Ok PyTrue.
Proof.
  assert (Hnone : ∀ x : list ProductRecord, x ∉ exported (new_events w w)).
  { intros x. unfold new_events. rewrite drop_all. simpl. apply not_elem_of_nil. }
  unfold scrape_products, bind, read_file.
  destruct (fs w !! p) as [content|] eqn:Hp; [|by intros ?%Hnone].
  destruct (find (has_class products_container_class)
              (BeautifulSoup env content)) as [c|] eqn:Hc.
  - rewrite (scrape_soup_present _ _ _ _ _ Hc).
    destruct (for_products _ _) as [acc [e|]] eqn:Hloop.
    + destruct (is_AttributeError e && negb (bool_decide (acc = [])));
        [|by intros ?%Hnone].
      rewrite finish_exported. intros ->%list_elem_of_singleton.
      exists content, c, (Some e). by rewrite finish_run.
    + rewrite finish_exported. intros ->%list_elem_of_singleton.
      exists content, c, None. by rewrite finish_run.
  - rewrite (scrape_soup_absent _ _ _ _ Hc). by intros ?%Hnone.
Qed.

Lemma Forall2_elem_of_r {A B} (P : A → B → Prop) (l : list A) (k : list B)
    (y : B) :
  Forall2 P l k → y ∈ k → ∃ x, x ∈ l ∧ P x y.
Proof.
  intros Hf [i Hi]%list_elem_of_lookup.
  destruct (Forall2_lookup_r _ _ _ _ _ Hf Hi) as (x & Hx & HP).
  exists x. split; [|done]. apply list_elem_of_lookup. by exists i.
Qed.

Lemma sublist_elem_of {A} (l1 l2 : list A) (x : A) :
  l1 `sublist_of` l2 → x ∈ l1 → x ∈ l2.
Proof.
  induction 1 as [|y l1 l2 _ IH|y l1 l2 _ IH]; [done| |].
  - rewrite !elem_of_cons. intros [->|?]; auto.
  - rewrite elem_of_cons. auto.
Qed.

(** ** The exported records *)

(** C2.  In every list that extraction hands to the exporter each record has
    a non-empty link; and of the children the loop went through, the ones
    that gave these records are exactly those that the exclusion rule lets
    pass, the rule being: the link resolved to the empty string, or name,
    price and link all did. *)
Theorem exported_links_nonempty (env : Env) (p : string) (n : Z) (w : World)
    (products : list ProductRecord) :
  products ∈ exported (new_events w (snd (scrape_products env p n w))) →
  (∀ r, r ∈ products → Link r ≠ "") ∧
  ∃ content c examined rest,
    fs w !! p = Some content ∧
    find (has_class products_container_class) (BeautifulSoup env content)
      = Some c ∧
    slice_to (children c) n = examined ++ rest ∧
    Forall2 (fun child r => loop_body child = Ok (Append r))
      (filter (fun child => ¬ excluded child) examined) products.
Proof.
  intros (content & c & e & Hp & Hc & Hloop & _)%scrape_products_exports.
  destruct (for_products_filter _ _ _ _ Hloop)
    as (examined & rest & recs & Hl & -> & _ & Hf).
  simpl. split.
  - intros r Hr.
    destruct (Forall2_elem_of_r _ _ _ _ Hf Hr) as (child & _ & Hchild).
    apply loop_body_append in Hchild
      as (_ & a & href & rating & _ & _ & _ & _ & ->).
    done.
  - by exists content, c, examined, rest.
Qed.

(** C6.  With a positive count, a list that extraction hands to the exporter
    has at most that many records, and the records are those of a
    subsequence of the container's children, taken in document order. *)
Theorem at_most_count_in_document_order (env : Env) (p : string) (n : Z)
    (w : World) (products : list ProductRecord) :
  (0 < n)%Z →
  products ∈ exported (new_events w (snd (scrape_products env p n w))) →
  (Z.of_nat (length products) <= n)%Z ∧
  ∃ content c kept,
    fs w !! p = Some content ∧
    find (has_class products_container_class) (BeautifulSoup env content)
      = Some c ∧
    kept `sublist_of` children c ∧
    Forall2 (fun child r => loop_body child = Ok (Append r)) kept products.
Proof.
  intros Hn (content & c & e & Hp & Hc & Hloop & _)%scrape_products_exports.
  split.
  - apply for_products_length in Hloop.
    pose proof (slice_to_length (children c) n). lia.
  - apply for_products_kept in Hloop as (kept & recs & -> & Hs & Hf).
    exists content, c, kept. split_and!; try done.
    etrans; [done|]. apply slice_to_sublist.
Qed.

(** C8.  Every record that extraction hands to the exporter comes from a
    child of the container that has an anchor with an [href], and its link is
    the site address, one ["/"] and that [href], character for character. *)
Theorem link_is_address_slash_href (env : Env) (p : string) (n : Z)
    (w : World) (products : list ProductRecord) (r : ProductRecord) :
  products ∈ exported (new_events w (snd (scrape_products env p n w))) →
  r ∈ products →
  ∃ content c child a href,
    fs w !! p = Some content ∧
    find (has_class products_container_class) (BeautifulSoup env content)
      = Some c ∧
    child ∈ children c ∧
    loop_body child = Ok (Append r) ∧
    find (has_name "a") child = Some a ∧
    attrs_get "href" a = Some href ∧
    Link r = url +:+ "/" +:+ href.
Proof.
  intros (content & c & e & Hp & Hc & Hloop & _)%scrape_products_exports Hr.
  apply for_products_kept in Hloop as (kept & recs & -> & Hs & Hf).
  destruct (Forall2_elem_of_r _ _ _ _ Hf Hr) as (child & Hin & Hchild).
  pose proof Hchild as Happ.
  apply loop_body_append in Hchild
    as (_ & a & href & rating & Ha & Hh & _ & _ & ->).
  exists content, c, child, a, href. split_and!; try done.
  eapply sublist_elem_of; [|done]. etrans; [done|]. apply slice_to_sublist.
Qed.

(** ** An error in the middle of the scan *)

Lemma for_products_raise (before after : list PageElement) (bad : PageElement)
    (acc : list ProductRecord) (e : exn) :
  for_products before [] = (acc, None) →
  loop_body bad = Raise e →
  for_products (before ++ bad :: after) [] = (acc, Some e).
Proof.
  intros Hbefore Hbad. rewrite for_products_app, Hbefore. simpl.
  by rewrite Hbad.
Qed.

(** The case of [AttributeError], the error of asking a missing sub-element
    for its text: with nothing built by then, extraction ends as
    [ParseFailure], nothing is exported and the run is a [Failure];
    otherwise extraction ends as [Ok], exactly the records built before the
    error are exported, and the run is a [Success]. *)
Lemma attribute_error_partway (env : Env) (key html : string) (n : Z)
    (w : World) (c bad : PageElement) (before after : list PageElement)
    (acc : list ProductRecord) :
  get_html_selenium env (url +:+ "/" +:+ key) = Ok html →
  find (has_class products_container_class) (BeautifulSoup env html)
    = Some c →
  slice_to (children c) n = before ++ bad :: after →
  for_products before [] = (acc, None) →
  loop_body bad = Raise AttributeError →
  let extraction :=
    scrape_products env (temp_path env) n (stored env html w) in
  let run := main env key n w in
  match acc with
  | [] =>
      status (fst extraction) = Some ParseFailure ∧
      exported (new_events w (snd run)) = [] ∧
      fst run = Some Failure
  | _ :: _ =>
      status (fst extraction) = Some StatusOk ∧
      exported (new_events w (snd run)) = [acc] ∧
      fst run = Some Success
  end.
Proof.
  intros Hget Hc Hslice Hbefore Hbad extraction run.
  assert (Hex : extraction =
    match acc with
    | [] => (Ok PyNone, stored env html w)
    | _ :: _ => finish (temp_path env) (Some acc) (stored env html w)
    end).
  { unfold extraction.
    rewrite scrape_products_stored, (scrape_soup_present _ _ _ _ _ Hc).
    rewrite Hslice, (for_products_raise _ _ _ _ _ Hbefore Hbad).
    by destruct acc. }
  unfold run. destruct acc as [|r acc].
  - destruct (run_none _ _ _ _ _ Hget Hex) as [Hout Hexp].
    by rewrite Hex.
  - destruct (run_finish _ _ _ _ _ _ Hget Hex) as [Hout Hexp].
    by rewrite Hex, finish_run.
Qed.

(** Any other exception in the scan is met by the general handler, which
    answers [None] whatever was built: a text node among the sliced
    children, or an anchor without [href], makes the run a [Failure]. *)
Lemma unexpected_error_partway (env : Env) (key html : string) (n : Z)
    (w : World) (c bad : PageElement) (before after : list PageElement)
    (acc : list ProductRecord) (e : exn) :
  get_html_selenium env (url +:+ "/" +:+ key) = Ok html →
  find (has_class products_container_class) (BeautifulSoup env html)
    = Some c →
  slice_to (children c) n = before ++ bad :: after →
  for_products before [] = (acc, None) →
  loop_body bad = Raise e →
  e ≠ AttributeError →
  fst (main env key n w) = Some Failure ∧
  exported (new_events w (snd (main env key n w))) = [].
Proof.
  intros Hget Hc Hslice Hbefore Hbad He.
  apply (run_none _ _ html); [done|].
  rewrite scrape_products_stored, (scrape_soup_present _ _ _ _ _ Hc).
  rewrite Hslice, (for_products_raise _ _ _ _ _ Hbefore Hbad).
  by destruct e.
Qed.

Lemma text_node_raises (s : string) :
  loop_body (NavigableString s) = Raise TypeError.
Proof. reflexivity. Qed.

(** C3, counterexample.  Five children, four tiles and then a text node:
    the turn for the fifth child raises (a [TypeError], in the first field
    extraction) after four records were built, and yet extraction does not
    end as [Ok], the four records are not exported and the run is not a
    [Success]. *)
Lemma error_partway_counterexample :
  let cs := Sample.four_tiles ++ [NavigableString " "] in
  let env := Sample.env (Sample.page cs) in
  slice_to (children (Sample.container cs)) 5
    = Sample.four_tiles ++ [NavigableString " "] ∧
  for_products Sample.four_tiles [] = (Sample.four_records, None) ∧
  loop_body (NavigableString " ") = Raise TypeError ∧
  status (fst (scrape_products env (temp_path env) 5
                 (stored env "<html>" Sample.fresh))) ≠ Some StatusOk ∧
  exported (new_events Sample.fresh (snd (main env "shirts" 5 Sample.fresh)))
    ≠ [Sample.four_records] ∧
  fst (main env "shirts" 5 Sample.fresh) ≠ Some Success.
Proof.
  split_and!; [reflexivity..| | |]; vm_compute; discriminate.
Qed.

(** C3, as amended.  Let the turn for one of the sliced children raise an
    exception after the children before it were gone through without error.
    If the exception is [AttributeError] and at least one record was built
    by then, extraction ends as [Ok], exactly the records built before the
    error are exported and the run is a [Success].  If it is
    [AttributeError] and no record was built, extraction ends as
    [ParseFailure], nothing is exported and the run is a [Failure].  If it
    is any other exception, extraction ends as [ParseFailure], nothing is
    exported and the run is a [Failure], whatever was built. *)
Theorem error_partway_by_exception (env : Env) (key html : string) (n : Z)
    (w : World) (c bad : PageElement) (before after : list PageElement)
    (acc : list ProductRecord) (e : exn) :
  get_html_selenium env (url +:+ "/" +:+ key) = Ok html →
  find (has_class products_container_class) (BeautifulSoup env html)
    = Some c →
  slice_to (children c) n = before ++ bad :: after →
  for_products before [] = (acc, None) →
  loop_body bad = Raise e →
  let extraction :=
    scrape_products env (temp_path env) n (stored env html w) in
  let run := main env key n w in
  (e = AttributeError → acc ≠ [] →
     status (fst extraction) = Some StatusOk ∧
     exported (new_events w (snd run)) = [acc] ∧
     fst run = Some Success) ∧
  (e = AttributeError → acc = [] →
     status (fst extraction) = Some ParseFailure ∧
     exported (new_events w (snd run)) = [] ∧
     fst run = Some Failure) ∧
  (e ≠ AttributeError →
     status (fst extraction) = Some ParseFailure ∧
     exported (new_events w (snd run)) = [] ∧
     fst run = Some Failure).
Proof.
  intros Hget Hc Hslice Hbefore Hbad extraction run. split_and!.
  - intros -> Hacc.
    pose proof (attribute_error_partway env key html n w c bad before after
                  acc Hget Hc Hslice Hbefore Hbad) as H.
    by destruct acc.
  - intros -> ->.
    exact (attribute_error_partway env key html n w c bad before after
             [] Hget Hc Hslice Hbefore Hbad).
  - intros He.
    destruct (unexpected_error_partway env key html n w c bad before after
                acc e Hget Hc Hslice Hbefore Hbad He) as [Hout Hexp].
    split_and!; [|done..]. unfold extraction.
    rewrite scrape_products_stored, (scrape_soup_present _ _ _ _ _ Hc).
    rewrite Hslice, (for_products_raise _ _ _ _ _ Hbefore Hbad).
    by destruct e.
Qed.

(** ** A child with nothing but a link *)

Lemma for_products_complete (l : list PageElement)
    (acc acc' : list ProductRecord) (c : PageElement) (r : ProductRecord) :
  for_products l acc = (acc', None) →
  c ∈ l → loop_body c = Ok (Append r) → r ∈ acc'.
Proof.
  revert acc. induction l as [|x l IH]; intros acc Hloop Hin Hc.
  - by apply elem_of_nil in Hin.
  - simpl in Hloop. apply elem_of_cons in Hin as [->|Hin].
    + rewrite Hc in Hloop.
      apply for_products_kept in Hloop as (_ & recs & -> & _).
      rewrite !elem_of_app, list_elem_of_singleton. auto.
    + destruct (loop_body x) as [[|r0]|e]; [eauto..|done].
Qed.

Lemma for_products_no_raise (l : list PageElement) (acc : list ProductRecord) :
  Forall (fun c => ∀ e, loop_body c ≠ Raise e) l →
  ∃ acc', for_products l acc = (acc', None).
Proof.
  intros Hl. revert acc.
  induction Hl as [|x l Hx _ IH]; intros acc; simpl; [by eexists|].
  destruct (loop_body x) as [[|r0]|e]; [apply IH..|by destruct (Hx e)].
Qed.

(** C7.  Take a child that is a tag, with no name element, no picture (or a
    picture without an image), no price element and no rating container, but
    with an anchor whose [href] is not empty.  The loop body raises nothing
    and appends a record whose name, image, price and rating are the empty
    string; the scan carries that record forward from wherever the child
    stands; and when no sliced child makes the loop raise, the record is in
    the list that the run exports. *)
Theorem link_only_child_is_emitted (product a : PageElement) (href : string) :
  (∃ nm cl atts cs, product = Tag nm cl atts cs) →
  find (has_class products_name_class) product = None →
  (find (has_name "picture") product = None ∨
   ∃ picture, find (has_name "picture") product = Some picture ∧
              find (has_name "img") picture = None) →
  find (has_class products_price_class) product = None →
  find (has_class products_rating_class) product = None →
  find (has_name "a") product = Some a →
  attrs_get "href" a = Some href →
  href ≠ "" →
  let r := {| Name := ""; Image := Some ""; Price := ""; Rating := "";
              Link := url +:+ "/" +:+ href |} in
  loop_body product = Ok (Append r) ∧
  (∀ before after acc,
     for_products before [] = (acc, None) →
     ∃ rest e,
       for_products (before ++ product :: after) [] = (acc ++ r :: rest, e)) ∧
  (∀ env key html n w c,
     get_html_selenium env (url +:+ "/" +:+ key) = Ok html →
     find (has_class products_container_class) (BeautifulSoup env html)
       = Some c →
     product ∈ slice_to (children c) n →
     Forall (fun child => ∀ e, loop_body child ≠ Raise e)
       (slice_to (children c) n) →
     fst (main env key n w) = Some Success ∧
     ∃ products,
       exported (new_events w (snd (main env key n w))) = [products] ∧
       r ∈ products).
Proof.
  intros (nm & cl & atts & cs & ->) Hname Himage Hprice Hrating Ha Hhref Hne r.
  assert (Hbody : loop_body (Tag nm cl atts cs) = Ok (Append r)).
  { unfold loop_body, product_rating, product_name, product_price,
      product_link, product_image.
    rewrite Hrating, Hname, Hprice, Ha, Hhref.
    assert (Hsk : skipped "" "" (Some href) = false).
    { unfold skipped. simpl. destruct (String.eqb_spec href ""); done. }
    rewrite Hsk. unfold r.
    destruct Himage as [->|(picture & -> & ->)]; reflexivity. }
  split_and!; [done| |].
  - intros before after acc Hbefore.
    rewrite for_products_app, Hbefore. cbn [for_products]. rewrite Hbody.
    destruct (for_products after (acc ++ [r])) as [acc' e] eqn:Hafter.
    apply for_products_kept in Hafter as (_ & recs & -> & _).
    exists recs, e. by rewrite <- app_assoc.
  - intros env key html n w c Hget Hc Hin Hall.
    destruct (for_products_no_raise _ [] Hall) as [acc Hloop].
    destruct (run_finish env key html n w acc Hget) as [Hout Hexp].
    { by rewrite scrape_products_stored,
        (scrape_soup_present _ _ _ _ _ Hc), Hloop. }
    split; [done|]. exists acc. split; [done|].
    eapply for_products_complete; done.
Qed.

(** ** Column widths *)

(** The loop over a column computes the longest rendered text, or keeps the
    value it started from when that is larger. *)
Lemma max_length_rendered (col : list cell) (acc : nat) :
  max_length col acc = Nat.max acc (max_rendered_length col).
Proof.
  revert acc. induction col as [|c col IH]; intros acc.
  - unfold max_rendered_length. simpl. lia.
  - cbn [max_length]. rewrite IH. unfold max_rendered_length.
    cbn [map foldr]. fold (max_rendered_length col).
    destruct c as [s|]; simpl.
    + destruct (String.eqb_spec s "") as [->|_]; simpl; lia.
    + lia.
Qed.

(** C9.  In the workbook that [save_to_excel] writes, and in the formatting
    of any sheet, there is one width per column, and the width of a column is
    the largest rendered-text length among its cells, header included, plus
    2, and no more than 50. *)
Theorem column_width_rule (products : list ProductRecord) (w : World) :
  (∀ sheet : list (list cell),
     length (widths (format_workbook sheet)) = length sheet ∧
     ∀ (i : nat) (col : list cell),
       sheet !! i = Some col →
       widths (format_workbook sheet) !! i
         = Some (Nat.min (max_rendered_length col + 2) 50)) ∧
  ∃ wb : Workbook,
    new_events w (snd (save_to_excel products w)) = [Exported products wb] ∧
    wb = format_workbook (DataFrame products).
Proof.
  split.
  - intros sheet. unfold format_workbook. cbn [widths]. split.
    + apply length_map.
    + intros i col Hcol. rewrite list_lookup_fmap, Hcol. simpl.
      unfold column_width. by rewrite max_length_rendered.
  - eexists. split; [|reflexivity].
    by apply new_events_app.
Qed.

(** ** Truncation comes before the filter *)

Lemma slice_to_take {A} (xs : list A) (n : Z) :
  (0 <= n)%Z → slice_to xs n = take (Z.to_nat n) xs.
Proof. intros Hn. unfold slice_to. by destruct (Z.leb_spec 0 n); [|lia]. Qed.

(** C10.  The run is decided by the first [n] children of the container:
    two pages whose containers agree on them end with the same message and
    export the same records, whatever follows.  And the limit counts
    children, not records: the page [banner; tile; tile] has two valid tiles,
    yet with [n = 2] only one record is exported, because the banner, which
    the filter drops, took one of the two places. *)
Theorem truncation_precedes_filter :
  (∀ (env env' : Env) (key html html' : string) (n : Z) (w : World)
     (c c' : PageElement),
     (0 < n)%Z →
     get_html_selenium env (url +:+ "/" +:+ key) = Ok html →
     get_html_selenium env' (url +:+ "/" +:+ key) = Ok html' →
     find (has_class products_container_class) (BeautifulSoup env html)
       = Some c →
     find (has_class products_container_class) (BeautifulSoup env' html')
       = Some c' →
     take (Z.to_nat n) (children c) = take (Z.to_nat n) (children c') →
     fst (main env key n w) = fst (main env' key n w) ∧
     exported (new_events w (snd (main env key n w))) =
     exported (new_events w (snd (main env' key n w)))) ∧
  (let cs := [ Sample.banner;
               Sample.tile "Shirt" "Rs. 499" "4.2" "shirts/1";
               Sample.tile "Kurta" "Rs. 899" "4.0" "kurtas/2" ] in
   let run := main (Sample.env (Sample.page cs)) "shirts" 2 Sample.fresh in
   find (has_class products_container_class) (Sample.page cs)
     = Some (Tag "ul" ["results-base"] ∅ cs) ∧
   2 ≤ length (List.filter valid_tile cs) ∧
   fst run = Some Success ∧
   ∃ products,
     exported (new_events Sample.fresh (snd run)) = [products] ∧
     length products < 2).
Proof.
  split.
  - intros env env' key html html' n w c c' Hn Hget Hget' Hc Hc' Htake.
    assert (Hrun : ∀ e h k, get_html_selenium e (url +:+ "/" +:+ key) = Ok h →
      find (has_class products_container_class) (BeautifulSoup e h) = Some k →
      ∀ acc x, for_products (take (Z.to_nat n) (children k)) [] = (acc, x) →
      (fst (main e key n w), exported (new_events w (snd (main e key n w)))) =
      match x with
      | None => (Some Success, [acc])
      | Some err =>
          if is_AttributeError err && negb (bool_decide (acc = []))
          then (Some Success, [acc]) else (Some Failure, [])
      end).
    { intros e h k Hg Hk acc x Hloop.
      pose proof (scrape_products_stored e h n w) as Hs.
      rewrite (scrape_soup_present _ _ _ _ _ Hk), slice_to_take, Hloop in Hs
        by lia.
      destruct x as [err|].
      - destruct (is_AttributeError err && negb (bool_decide (acc = []))).
        + by destruct (run_finish _ _ _ _ _ _ Hg Hs) as [-> ->].
        + by destruct (run_none _ _ _ _ _ Hg Hs) as [-> ->].
      - by destruct (run_finish _ _ _ _ _ _ Hg Hs) as [-> ->]. }
    destruct (for_products (take (Z.to_nat n) (children c)) [])
      as [acc x] eqn:Hloop.
    pose proof (Hrun env html c Hget Hc acc x Hloop) as H1.
    rewrite Htake in Hloop.
    pose proof (Hrun env' html' c' Hget' Hc' acc x Hloop) as H2.
    rewrite <- H2 in H1. by injection H1.
  - vm_compute. split_and!; [done| lia |done|].
    eexists. split; [reflexivity|]. simpl. lia.
Qed.

(** ** The properties at sample pages *)

Lemma exported_links_nonempty_witness :
  let env := Sample.env (Sample.page (Sample.banner :: Sample.four_tiles)) in
  let w := stored env "<html>" Sample.fresh in
  Sample.four_records
    ∈ exported (new_events w (snd (scrape_products env (temp_path env) 10 w))) ∧
  (∀ r, r ∈ Sample.four_records → Link r ≠ "") ∧
  ∃ content c examined rest,
    fs w !! temp_path env = Some content ∧
    find (has_class products_container_class) (BeautifulSoup env content)
      = Some c ∧
    slice_to (children c) 10 = examined ++ rest ∧
    Forall2 (fun child r => loop_body child = Ok (Append r))
      (filter (fun child => ¬ excluded child) examined) Sample.four_records.
Proof.
  intros env w.
  assert (Hin : Sample.four_records
    ∈ exported (new_events w (snd (scrape_products env (temp_path env) 10 w))))
    by (vm_compute; constructor).
  exact (conj Hin
           (exported_links_nonempty env (temp_path env) 10 w _ Hin)).
Defined.

Lemma at_most_count_in_document_order_witness :
  let env := Sample.env (Sample.page (Sample.banner :: Sample.four_tiles)) in
  let w := stored env "<html>" Sample.fresh in
  let products := [Sample.record "Shirt" "Rs. 499" "4.2" "shirts/1"] in
  (0 < 2)%Z ∧
  products
    ∈ exported (new_events w (snd (scrape_products env (temp_path env) 2 w))) ∧
  (Z.of_nat (length products) <= 2)%Z ∧
  ∃ content c kept,
    fs w !! temp_path env = Some content ∧
    find (has_class products_container_class) (BeautifulSoup env content)
      = Some c ∧
    kept `sublist_of` children c ∧
    Forall2 (fun child r => loop_body child = Ok (Append r)) kept products.
Proof.
  intros env w products.
  assert (Hin : products
    ∈ exported (new_events w (snd (scrape_products env (temp_path env) 2 w))))
    by (vm_compute; constructor).
  exact (conj eq_refl (conj Hin
           (at_most_count_in_document_order env (temp_path env) 2 w _
              eq_refl Hin))).
Defined.

Lemma link_is_address_slash_href_witness :
  let env :=
    Sample.env (Sample.page
      [ Sample.tile "Shirt" "Rs. 499" "4.2" "/shirts/1";
        Sample.tile "Kurta" "Rs. 899" "4.0"
          "https://www.myntra.com/kurtas/2" ]) in
  let w := stored env "<html>" Sample.fresh in
  let r := Sample.record "Kurta" "Rs. 899" "4.0"
             "https://www.myntra.com/kurtas/2" in
  let products := [Sample.record "Shirt" "Rs. 499" "4.2" "/shirts/1"; r] in
  products
    ∈ exported (new_events w (snd (scrape_products env (temp_path env) 10 w))) ∧
  r ∈ products ∧
  Link r = "https://www.myntra.com/https://www.myntra.com/kurtas/2" ∧
  ∃ content c child a href,
    fs w !! temp_path env = Some content ∧
    find (has_class products_container_class) (BeautifulSoup env content)
      = Some c ∧
    child ∈ children c ∧
    loop_body child = Ok (Append r) ∧
    find (has_name "a") child = Some a ∧
    attrs_get "href" a = Some href ∧
    Link r = url +:+ "/" +:+ href.
Proof.
  intros env w r products.
  assert (Hin : products
    ∈ exported (new_events w (snd (scrape_products env (temp_path env) 10 w))))
    by (vm_compute; constructor).
  assert (Hr : r ∈ products) by (right; left).
  exact (conj Hin (conj Hr (conj eq_refl
           (link_is_address_slash_href env (temp_path env) 10 w _ r Hin Hr)))).
Defined.

Lemma error_partway_by_exception_witness :
  let cs := Sample.four_tiles ++ [Sample.broken_rating "caps/5"] in
  let env := Sample.env (Sample.page cs) in
  find (has_class products_container_class) (BeautifulSoup env "<html>")
    = Some (Sample.container cs) ∧
  slice_to (children (Sample.container cs)) 5
    = Sample.four_tiles ++ Sample.broken_rating "caps/5" :: [] ∧
  for_products Sample.four_tiles [] = (Sample.four_records, None) ∧
  loop_body (Sample.broken_rating "caps/5") = Raise AttributeError ∧
  status (fst (scrape_products env (temp_path env) 5
                 (stored env "<html>" Sample.fresh))) = Some StatusOk ∧
  exported (new_events Sample.fresh
              (snd (main env "shirts" 5 Sample.fresh)))
    = [Sample.four_records] ∧
  fst (main env "shirts" 5 Sample.fresh) = Some Success.
Proof.
  intros cs env.
  destruct (error_partway_by_exception env "shirts" "<html>" 5 Sample.fresh
              (Sample.container cs) (Sample.broken_rating "caps/5")
              Sample.four_tiles [] Sample.four_records AttributeError
              eq_refl eq_refl eq_refl eq_refl eq_refl) as [H _].
  assert (Hne : Sample.four_records ≠ []) by discriminate.
  repeat split; try reflexivity; apply (H eq_refl Hne).
Defined.

Lemma link_only_child_is_emitted_witness :
  let product := Sample.bare_link "shirts/9" in
  let r := {| Name := ""; Image := Some ""; Price := ""; Rating := "";
              Link := "https://www.myntra.com/shirts/9" |} in
  loop_body product = Ok (Append r) ∧
  fst (main (Sample.env (Sample.page [product])) "shirts" 10 Sample.fresh)
    = Some Success ∧
  ∃ products,
    exported (new_events Sample.fresh
                (snd (main (Sample.env (Sample.page [product])) "shirts" 10
                        Sample.fresh))) = [products] ∧
    r ∈ products.
Proof.
  intros product r.
  assert (Hne : "shirts/9" ≠ "") by discriminate.
  destruct (link_only_child_is_emitted product
              (Tag "a" [] {[ "href" := "shirts/9" ]} []) "shirts/9"
              (ex_intro _ _ (ex_intro _ _ (ex_intro _ _
                 (ex_intro _ _ eq_refl))))
              eq_refl (or_introl eq_refl) eq_refl eq_refl eq_refl eq_refl Hne)
    as (Hbody & _ & Hrun).
  split; [exact Hbody|].
  apply (Hrun (Sample.env (Sample.page [product])) "shirts" "<html>" 10%Z
           Sample.fresh (Sample.container [product]) eq_refl eq_refl).
  - left.
  - repeat constructor. intros e. discriminate.
Defined.

(** * Further properties of the script *)

(** ** How a run can end *)

Lemma scrape_soup_answers (soup : PageElement) (p : string) (n : Z) (w : World) :
  fst (scrape_soup soup p n w) = Ok PyTrue ∨
  scrape_soup soup p n w = (Ok PyNone, w) ∨
  scrape_soup soup p n w = (Raise UnboundLocalError, w).
Proof.
  destruct (find (has_class products_container_class) soup) as [c|] eqn:Hc.
  - rewrite (scrape_soup_present _ _ _ _ _ Hc).
    destruct (for_products _ _) as [acc [e|]]; [|by left].
    destruct (is_AttributeError e && negb (bool_decide (acc = [])));
      [by left|by right; left].
  - right; right. by apply scrape_soup_absent.
Qed.

(** After a page was fetched, a run that is not a success has done nothing
    but write the temporary file. *)
Lemma main_answers (env : Env) (key html : string) (n : Z) (w : World) :
  get_html_selenium env (url +:+ "/" +:+ key) = Ok html →
  fst (main env key n w) = Some Success ∨
  main env key n w = (Some Failure, stored env html w).
Proof.
  intros Hget. rewrite (main_run _ _ _ _ _ Hget), scrape_products_stored.
  destruct (scrape_soup_answers (BeautifulSoup env html) (temp_path env) n
              (stored env html w)) as [H|[H|H]].
  - left. destruct (scrape_soup _ _ _ _) as [[v|e] w']; simpl in H; [|done].
    by injection H as ->.
  - right. by rewrite H.
  - right. by rewrite H.
Qed.

Lemma main_world (env : Env) (key html : string) (n : Z) (w : World) :
  get_html_selenium env (url +:+ "/" +:+ key) = Ok html →
  snd (main env key n w) =
  snd (scrape_soup (BeautifulSoup env html) (temp_path env) n
         (stored env html w)).
Proof.
  intros Hget. rewrite (main_run _ _ _ _ _ Hget), scrape_products_stored.
  by destruct (scrape_soup _ _ _ _) as [[v|e] w'].
Qed.

Lemma main_fetch_failed (env : Env) (key : string) (n : Z) (w : World)
    (e : exn) :
  get_html_selenium env (url +:+ "/" +:+ key) = Raise e →
  main env key n w = (Some Failure, w).
Proof.
  intros Hget. unfold main, scrape, try_except, bind, lift. by rewrite Hget.
Qed.

(** X1.  Whatever the browser delivers and whatever the page holds, a run
    ends with one of two messages, success or failure: no exception leaves
    [scrape], and the "products not found" message is never reached. *)
Theorem run_is_success_or_failure (env : Env) (key : string) (n : Z)
    (w : World) :
  fst (main env key n w) = Some Success ∨
  fst (main env key n w) = Some Failure.
Proof.
  destruct (get_html_selenium env (url +:+ "/" +:+ key)) as [html|e] eqn:Hget.
  - destruct (main_answers env key html n w Hget) as [H|H]; [by left|].
    right. by rewrite H.
  - right. by rewrite (main_fetch_failed _ _ _ _ _ Hget).
Qed.

(** X2.  When the browser fails, the run is a failure and the world is left
    as it was: no temporary file is written and nothing is exported. *)
Theorem fetch_failure_changes_nothing (env : Env) (key : string) (n : Z)
    (w : World) (e : exn) :
  get_html_selenium env (url +:+ "/" +:+ key) = Raise e →
  main env key n w = (Some Failure, w).
Proof. apply main_fetch_failed. Qed.

(** X3.  A run that ends in success has done exactly three things, in this
    order: written the temporary file, removed it, and exported one list of
    records; the temporary file is gone afterwards. *)
Theorem successful_run_trace (env : Env) (key html : string) (n : Z)
    (w : World) :
  get_html_selenium env (url +:+ "/" +:+ key) = Ok html →
  fst (main env key n w) = Some Success →
  fs (snd (main env key n w)) !! temp_path env = None ∧
  ∃ products,
    new_events w (snd (main env key n w)) =
    [ Wrote (temp_path env); Removed (temp_path env);
      Exported products (format_workbook (DataFrame products)) ].
Proof.
  intros Hget Hok.
  destruct (main_answers env key html n w Hget) as [_|H];
    [|by rewrite H in Hok].
  rewrite (main_world _ _ _ _ _ Hget).
  rewrite (main_run _ _ _ _ _ Hget), scrape_products_stored in Hok.
  destruct (find (has_class products_container_class)
              (BeautifulSoup env html)) as [c|] eqn:Hc.
  - rewrite (scrape_soup_present _ _ _ _ _ Hc) in Hok |- *.
    assert (Hfin : ∀ acc,
      let w' := snd (finish (temp_path env) (Some acc) (stored env html w)) in
      fs w' !! temp_path env = None ∧
      ∃ products, new_events w w' =
        [ Wrote (temp_path env); Removed (temp_path env);
          Exported products (format_workbook (DataFrame products)) ]).
    { intros acc w'. split.
      - unfold w'. rewrite finish_run. cbn [snd log fs]. apply clean_fs.
      - exists acc. apply new_events_app. unfold w'.
        rewrite finish_trace, stored_trace, <- app_assoc.
        unfold stored, write_file, effect. cbn [snd fs].
        by rewrite lookup_insert_eq. }
    destruct (for_products _ _) as [acc [e|]]; [|apply Hfin].
    destruct (is_AttributeError e && negb (bool_decide (acc = [])));
      [apply Hfin|done].
  - by rewrite (scrape_soup_absent _ _ _ _ Hc) in Hok.
Qed.

(** X4.  When extraction fails before the export is reached, because the
    page has no results container, or the loop was left by an exception
    other than [AttributeError], or by [AttributeError] with no record
    built, [scrape_products] answers [None] or lets an [UnboundLocalError]
    through, and it leaves everything as it found it: the stored page is not
    removed and [save_to_excel] is not called. *)
Theorem failed_extraction_keeps_stored_page (env : Env) (p content : string)
    (n : Z) (w : World) :
  fs w !! p = Some content →
  (find (has_class products_container_class) (BeautifulSoup env content)
     = None ∨
   ∃ c acc e,
     find (has_class products_container_class) (BeautifulSoup env content)
       = Some c ∧
     for_products (slice_to (children c) n) [] = (acc, Some e) ∧
     (e ≠ AttributeError ∨ acc = [])) →
  scrape_products env p n w = (Ok PyNone, w) ∨
  scrape_products env p n w = (Raise UnboundLocalError, w).
Proof.
  intros Hp Hfail. unfold scrape_products, bind, read_file. rewrite Hp.
  destruct Hfail as [Habsent|(c & acc & e & Hc & Hloop & Hkind)].
  - right. by apply scrape_soup_absent.
  - left. rewrite (scrape_soup_present _ _ _ _ _ Hc), Hloop.
    destruct Hkind as [He| ->]; [by destruct e|].
    by rewrite andb_false_r.
Qed.

(** ** [clean] *)

(** X6.  [clean] changes no file other than the one it is given, and for a
    path that does not exist it does nothing: no exception, no removal. *)
Theorem clean_touches_only_its_path (p : string) (w : World) :
  (∀ q, q ≠ p → fs (snd (clean p w)) !! q = fs w !! q) ∧
  (fs w !! p = None → clean p w = (Ok tt, w)).
Proof.
  split.
  - intros q Hq. unfold clean, effect. cbn [snd].
    destruct (fs w !! p); cbn [fs]; [by apply lookup_delete_ne|done].
  - intros Hp. unfold clean, effect. by rewrite Hp.
Qed.

(** X7.  Cleaning twice is cleaning once. *)
Theorem clean_twice (p : string) (w : World) :
  clean p (snd (clean p w)) = clean p w.
Proof.
  unfold clean at 1. unfold effect. rewrite clean_fs. reflexivity.
Qed.

(** ** More on column widths *)

Lemma column_width_rendered (col : list cell) :
  column_width col = Nat.min (max_rendered_length col + 2) 50.
Proof. unfold column_width. by rewrite max_length_rendered. Qed.

Lemma max_rendered_length_app (col extra : list cell) :
  max_rendered_length (col ++ extra) =
  Nat.max (max_rendered_length col) (max_rendered_length extra).
Proof.
  unfold max_rendered_length. induction col as [|c col IH]; simpl; [done|].
  rewrite IH. lia.
Qed.

Lemma max_rendered_length_elem (col : list cell) (c : cell) :
  c ∈ col → String.length (rendered c) ≤ max_rendered_length col.
Proof.
  unfold max_rendered_length.
  induction col as [|x col IH]; [by intros ?%elem_of_nil|].
  intros [->|Hin]%elem_of_cons; simpl; [lia|]. specialize (IH Hin). lia.
Qed.

(** X8.  Every column gets a width between 2 and 50, whatever its cells. *)
Theorem column_width_bounds (col : list cell) :
  2 ≤ column_width col ≤ 50.
Proof. rewrite column_width_rendered. lia. Qed.

(** X9.  Further rows never make a column narrower, and the order of the
    rows has no influence on the width. *)
Theorem column_width_rows (col extra col' : list cell) :
  column_width col ≤ column_width (col ++ extra) ∧
  (col ≡ₚ col' → column_width col = column_width col').
Proof.
  split.
  - rewrite !column_width_rendered, max_rendered_length_app. lia.
  - intros Hperm. rewrite !column_width_rendered. f_equal. f_equal.
    unfold max_rendered_length.
    induction Hperm as [|x l l' _ IH|x y l|l l' l'' _ IH1 _ IH2]; simpl;
      [done|by rewrite IH|lia|by rewrite IH1].
Qed.

(** X10.  A column that holds a text of 48 characters or more has width 50;
    a column whose texts are all shorter is as wide as its longest text plus
    2. *)
Theorem column_width_cap (col : list cell) :
  ((∃ c, c ∈ col ∧ 48 ≤ String.length (rendered c)) →
   column_width col = 50) ∧
  ((∀ c, c ∈ col → String.length (rendered c) < 48) →
   column_width col = max_rendered_length col + 2).
Proof.
  rewrite column_width_rendered. split.
  - intros (c & Hin & Hlen). apply max_rendered_length_elem in Hin. lia.
  - intros Hall.
    assert (max_rendered_length col < 48); [|lia].
    unfold max_rendered_length.
    induction col as [|x col IH]; simpl; [lia|].
    assert (String.length (rendered x) < 48) by (apply Hall; left).
    assert (foldr Nat.max 0
              (map (fun c => String.length (rendered c)) col) < 48).
    { apply IH. intros c Hc. apply Hall. by right. }
    lia.
Qed.

(** ** Exceptions other than [AttributeError] *)

(** X11.  A text node among the children that the loop goes through, such
    as white space between two tiles, makes the whole run a failure: nothing
    is exported, however many records were built before it. *)
Theorem text_node_fails_run (env : Env) (key html s : string) (n : Z)
    (w : World) (c : PageElement) (before after : list PageElement)
    (acc : list ProductRecord) :
  get_html_selenium env (url +:+ "/" +:+ key) = Ok html →
  find (has_class products_container_class) (BeautifulSoup env html)
    = Some c →
  slice_to (children c) n = before ++ NavigableString s :: after →
  for_products before [] = (acc, None) →
  fst (main env key n w) = Some Failure ∧
  exported (new_events w (snd (main env key n w))) = [].
Proof.
  intros Hget Hc Hslice Hbefore.
  by apply (unexpected_error_partway env key html n w c (NavigableString s)
              before after acc TypeError).
Qed.

(** X12.  A child whose first anchor has no [href] passes the filter (its
    link is [None], not the empty string) and then fails when the link is
    joined to the address; the run is a failure and nothing is exported,
    however many records were built before it. *)
Theorem anchor_without_href_fails_run (env : Env) (key html : string) (n : Z)
    (w : World) (c product a : PageElement) (before after : list PageElement)
    (acc : list ProductRecord) (rating : string) :
  get_html_selenium env (url +:+ "/" +:+ key) = Ok html →
  find (has_class products_container_class) (BeautifulSoup env html)
    = Some c →
  slice_to (children c) n = before ++ product :: after →
  for_products before [] = (acc, None) →
  (∃ nm cl atts cs, product = Tag nm cl atts cs) →
  product_rating product = Ok rating →
  find (has_name "a") product = Some a →
  attrs_get "href" a = None →
  loop_body product = Raise TypeError ∧
  fst (main env key n w) = Some Failure ∧
  exported (new_events w (snd (main env key n w))) = [].
Proof.
  intros Hget Hc Hslice Hbefore (nm & cl & atts & cs & ->) Hr Ha Hhref.
  assert (Hbody : loop_body (Tag nm cl atts cs) = Raise TypeError).
  { unfold loop_body. rewrite Hr. unfold product_link. rewrite Ha, Hhref.
    unfold skipped. cbn [eq_empty]. by rewrite andb_false_r. }
  split; [done|].
  by apply (unexpected_error_partway env key html n w c (Tag nm cl atts cs)
              before after acc TypeError).
Qed.

(** ** A count of zero *)

(** X13.  With a count of 0, which [scrape] accepts although the prompt does
    not, no child is looked at: a page with a results container gives a
    success and an export of no records, whatever the container holds. *)
Theorem zero_count_exports_nothing (env : Env) (key html : string) (w : World)
    (c : PageElement) :
  get_html_selenium env (url +:+ "/" +:+ key) = Ok html →
  find (has_class products_container_class) (BeautifulSoup env html)
    = Some c →
  fst (main env key 0 w) = Some Success ∧
  exported (new_events w (snd (main env key 0 w))) = [[]].
Proof.
  intros Hget Hc. apply (run_finish env key html 0 w [] Hget).
  by rewrite scrape_products_stored, (scrape_soup_present _ _ _ _ _ Hc).
Qed.

(** ** The prompts *)

Lemma decimal_value_nonneg (s : string) (acc : Z) :
  (0 <= acc)%Z → (0 <= Input.decimal_value s acc)%Z.
Proof.
  revert acc. induction s as [|c s IH]; intros acc Hacc; simpl; [done|].
  apply IH. lia.
Qed.

Lemma int_nonneg (lim : option nat) (s : string) (n : Z) :
  Input.int lim s = Some n → (0 <= n)%Z.
Proof.
  unfold Input.int. destruct (negb _); [done|].
  pose proof (decimal_value_nonneg s 0 ltac:(done)).
  destruct lim as [l|]; [destruct (l <? String.length s)|];
    intros [= <-]; done.
Qed.

(** X14.  A run is only started with a search key that is neither empty nor
    made of digits, and with a count of at least 1: ten when the second
    prompt was left blank, otherwise the number typed there. *)
Theorem started_run_has_valid_input (lim : option nat) (env : Env)
    (key count : string) (w w' : World) (message : option Outcome) :
  Input.script lim env key count w = (Input.Finished message, w') →
  key ≠ "" ∧ Input.isdigit key = false ∧
  ∃ n : Z,
    (1 <= n)%Z ∧ main env key n w = (message, w') ∧
    ((count = "" ∧ n = 10%Z) ∨
     (Input.isdigit count = true ∧ Input.int lim count = Some n)).
Proof.
  unfold Input.script, Input.read_count.
  destruct (String.eqb_spec key "") as [->|Hkey]; [done|].
  destruct (Input.isdigit key) eqn:Hdig; [done|].
  destruct (String.eqb_spec count "") as [->|Hcount]; cbn [negb].
  - destruct (main env key 10 w) as [m w1] eqn:Hmain. intros [= <- <-].
    split_and!; [done..|]. exists 10%Z. split_and!; [lia|done|by left].
  - destruct (Input.isdigit count) eqn:Hc; cbn [negb]; [|done].
    destruct (Input.int lim count) as [n|] eqn:Hint; [|done].
    destruct (Z.ltb_spec n 1); [done|].
    destruct (main env key n w) as [m w1] eqn:Hmain. intros [= <- <-].
    split_and!; [done..|]. exists n. split_and!; [done|done|by right].
Qed.

(** X15.  When the script ends without starting a run, because an input was
    refused or because [int] raised, it has touched no file and exported
    nothing. *)
Theorem refused_input_changes_nothing (lim : option nat) (env : Env)
    (key count : string) (w : World) :
  (∀ message,
     fst (Input.script lim env key count w) ≠ Input.Finished message) →
  snd (Input.script lim env key count w) = w.
Proof.
  unfold Input.script.
  destruct (String.eqb key ""); [done|].
  destruct (Input.isdigit key); [done|].
  destruct (Input.read_count lim count) as [n|why|]; [|done..].
  destruct (main env key n w) as [m w1]. intros H. by destruct (H m).
Qed.

(** X16.  Leaving the second prompt blank starts the same run as typing
    [10]: the script ends with the same message, the same files and the same
    exports (the line printed right after the prompt is not part of this),
    as long as the interpreter converts two-digit strings. *)
Theorem blank_count_is_ten (lim : option nat) (env : Env) (key : string)
    (w : World) :
  (∀ l, lim = Some l → 2 ≤ l) →
  Input.script lim env key "" w = Input.script lim env key "10" w.
Proof.
  intros Hlim. unfold Input.script.
  assert (Hcount : Input.read_count lim "10" = Input.Chosen 10).
  { unfold Input.read_count, Input.int.
    change (String.eqb "10" "") with false.
    change (Input.isdigit "10") with true.
    change (Input.all_chars Input.is_decimal "10") with true.
    change (Input.decimal_value "10" 0) with 10%Z.
    change (String.length "10") with 2. cbn [negb].
    destruct lim as [l|]; [|done].
    specialize (Hlim l eq_refl).
    destruct (Nat.ltb_spec l 2); [lia|done]. }
  by rewrite Hcount.
Qed.

(** X17.  A count made of digit characters that are not all decimal, such as
    a superscript two, passes the digit test and makes [int] raise: the
    script ends with an uncaught [ValueError] and no run is started. *)
Theorem superscript_count_crashes (lim : option nat) (env : Env)
    (key count : string) (w : World) :
  key ≠ "" → Input.isdigit key = false →
  Input.isdigit count = true →
  Input.all_chars Input.is_decimal count = false →
  Input.script lim env key count w = (Input.UncaughtValueError, w).
Proof.
  intros Hkey Hdig Hc Hdec. unfold Input.script, Input.read_count.
  destruct (String.eqb_spec key ""); [done|]. rewrite Hdig.
  destruct (String.eqb_spec count "") as [->|_]; [done|].
  rewrite Hc. cbn [negb]. unfold Input.int. by rewrite Hdec.
Qed.

(** X18.  The count is refused as below one only when it reads as zero: the
    digit test leaves no way to type a negative number. *)
Theorem count_below_one_is_zero (lim : option nat) (env : Env)
    (key count : string) (w w' : World) :
  Input.script lim env key count w = (Input.Quit Input.CountBelowOne, w') →
  Input.isdigit count = true ∧ Input.int lim count = Some 0%Z ∧ w' = w.
Proof.
  unfold Input.script, Input.read_count.
  destruct (String.eqb key ""); [done|].
  destruct (Input.isdigit key); [done|].
  destruct (String.eqb count ""); cbn [negb].
  { by destruct (main env key 10 w). }
  destruct (Input.isdigit count); cbn [negb]; [|done].
  destruct (Input.int lim count) as [n|] eqn:Hint; [|done].
  pose proof (int_nonneg _ _ _ Hint).
  destruct (Z.ltb_spec n 1); [|by destruct (main env key n w)].
  intros [= <-]. split_and!; [done| |done]. f_equal. lia.
Qed.

(** ** The scroll loop *)

Lemma range_len_some (stop step : Z) :
  step ≠ 0%Z → ∃ turns, Selenium.range_len stop step = Some turns.
Proof.
  intros Hstep. unfold Selenium.range_len.
  destruct (Z.eqb_spec step 0); [done|].
  destruct (0 <? step)%Z; by eexists.
Qed.

(** X19.  With a positive step, the scrolls of one pass add up to at least
    the height measured before the pass and overshoot it by less than one
    step; a page of no height is not scrolled at all. *)
Theorem pass_covers_height (height step : Z) :
  (0 < step)%Z →
  ∃ turns,
    Selenium.range_len height step = Some turns ∧
    (height <= Z.of_nat turns * step)%Z ∧
    ((0 <= height)%Z → (Z.of_nat turns * step < height + step)%Z) ∧
    ((height <= 0)%Z → turns = 0).
Proof.
  intros Hstep. unfold Selenium.range_len.
  destruct (Z.eqb_spec step 0); [lia|].
  destruct (Z.ltb_spec 0 step); [|lia].
  eexists. split; [reflexivity|].
  pose proof (Z.mul_div_le (height + step - 1) step Hstep).
  pose proof (Z.mul_succ_div_gt (height + step - 1) step Hstep).
  destruct (Z.le_gt_cases 0 ((height + step - 1) / step)) as [Hq|Hq].
  - rewrite Z2Nat.id by done. split_and!; [nia|nia|].
    intros Hh. assert ((height + step - 1) / step = 0)%Z as -> by nia. done.
  - rewrite Z2Nat.nonpos by lia. split_and!; nia || done.
Qed.

Lemma scroll_loop_more_fuel (d : Selenium.Driver)
    (pause : Selenium.duration d) (step : Z) (fuel fuel' : nat) (h : Z)
    (p : Selenium.page d) (r : option (Selenium.page d)) :
  Selenium.scroll_loop d pause step fuel h p = Some r →
  fuel ≤ fuel' →
  Selenium.scroll_loop d pause step fuel' h p = Some r.
Proof.
  revert fuel' h p. induction fuel as [|fuel IH]; intros fuel' h p; [done|].
  destruct fuel' as [|fuel']; [lia|]. simpl.
  destruct (Selenium.range_len h step) as [turns|]; [|done].
  destruct (_ =? h)%Z; [done|]. intros Hr Hle. apply IH; [done|lia].
Qed.

(** The number of passes allowed only decides whether the loop is followed
    to its end: once it is, allowing more passes gives the same answer. *)
Theorem more_passes_same_answer (d : Selenium.Driver)
    (pause : Selenium.duration d) (step : Z) (fuel fuel' : nat)
    (address : string) (answer : Selenium.Fetch) :
  Selenium.get_html_selenium d pause step fuel address = Some answer →
  fuel ≤ fuel' →
  Selenium.get_html_selenium d pause step fuel' address = Some answer.
Proof.
  unfold Selenium.get_html_selenium.
  destruct (Selenium.navigate d address) as [p|]; [|done].
  destruct (Selenium.scroll_loop d pause step fuel _ p) as [r|] eqn:Hloop;
    [|done].
  intros Hanswer Hle.
  by rewrite (scroll_loop_more_fuel _ _ _ _ _ _ _ _ Hloop Hle).
Qed.

Lemma scroll_loop_converged (d : Selenium.Driver)
    (pause : Selenium.duration d) (step : Z) (fuel : nat)
    (p p' : Selenium.page d) :
  Selenium.scroll_loop d pause step fuel (Selenium.scrollHeight d p) p
    = Some (Some p') →
  ∃ q turns,
    Selenium.range_len (Selenium.scrollHeight d q) step = Some turns ∧
    p' = Selenium.sleep d (Selenium.one_second d)
           (Selenium.scroll_pass d pause step turns q) ∧
    Selenium.scrollHeight d p' = Selenium.scrollHeight d q.
Proof.
  revert p. induction fuel as [|fuel IH]; intros p; [done|]. simpl.
  destruct (Selenium.range_len _ step) as [turns|] eqn:Hturns; [|done].
  destruct (Z.eqb_spec
              (Selenium.scrollHeight d
                 (Selenium.sleep d (Selenium.one_second d)
                    (Selenium.scroll_pass d pause step turns p)))
              (Selenium.scrollHeight d p)) as [Heq|_].
  - intros [= <-]. by exists p, turns.
  - apply IH.
Qed.

(** X20.  The page source that is handed back is that of a page on which a
    complete pass of scrolling, followed by the wait of one second, left the
    height as it was before the pass. *)
Theorem fetched_page_has_settled (d : Selenium.Driver)
    (pause : Selenium.duration d) (step : Z) (fuel : nat) (address : string)
    (page_source : string) :
  Selenium.get_html_selenium d pause step fuel address
    = Some (Selenium.Fetched page_source) →
  ∃ q turns,
    Selenium.range_len (Selenium.scrollHeight d q) step = Some turns ∧
    Selenium.scrollHeight d
      (Selenium.sleep d (Selenium.one_second d)
         (Selenium.scroll_pass d pause step turns q))
      = Selenium.scrollHeight d q ∧
    page_source =
      Selenium.page_source d
        (Selenium.sleep d (Selenium.one_second d)
           (Selenium.scroll_pass d pause step turns q)).
Proof.
  unfold Selenium.get_html_selenium.
  destruct (Selenium.navigate d address) as [p|]; [|done].
  destruct (Selenium.scroll_loop d pause step fuel _ p) as [[p'|]|] eqn:Hloop;
    [|done..].
  intros [= <-].
  apply scroll_loop_converged in Hloop as (q & turns & Hturns & -> & Hh).
  by exists q, turns.
Qed.

Section Growth.

Context (d : Selenium.Driver) (pause : Selenium.duration d) (step : Z).
Context (Inv : Selenium.page d → Prop).
Context (Hscroll : ∀ p, Inv p →
  Inv (Selenium.scrollBy d step p) ∧
  (Selenium.scrollHeight d p
   <= Selenium.scrollHeight d (Selenium.scrollBy d step p))%Z).
Context (Hsleep : ∀ t p, Inv p →
  Inv (Selenium.sleep d t p) ∧
  (Selenium.scrollHeight d p
   <= Selenium.scrollHeight d (Selenium.sleep d t p))%Z).

Lemma scroll_pass_grows (turns : nat) (p : Selenium.page d) :
  Inv p →
  Inv (Selenium.scroll_pass d pause step turns p) ∧
  (Selenium.scrollHeight d p
   <= Selenium.scrollHeight d (Selenium.scroll_pass d pause step turns p))%Z.
Proof.
  revert p. induction turns as [|turns IH]; intros p Hp; simpl; [done|].
  destruct (Hscroll p Hp) as [H1 H2].
  destruct (Hsleep pause _ H1) as [H3 H4].
  destruct (IH _ H3) as [H5 H6]. split; [done|lia].
Qed.

Lemma scroll_loop_terminates (bound : Z) (fuel : nat) (p : Selenium.page d) :
  step ≠ 0%Z →
  (∀ q, Inv q → (Selenium.scrollHeight d q <= bound)%Z) →
  Inv p →
  Z.to_nat (bound - Selenium.scrollHeight d p) + 1 ≤ fuel →
  ∃ p', Selenium.scroll_loop d pause step fuel (Selenium.scrollHeight d p) p
        = Some (Some p').
Proof.
  intros Hstep Hbound. revert p.
  induction fuel as [|fuel IH]; intros p Hp Hfuel; [lia|]. simpl.
  destruct (range_len_some (Selenium.scrollHeight d p) step Hstep)
    as [turns ->].
  destruct (scroll_pass_grows turns p Hp) as [H1 H2].
  destruct (Hsleep (Selenium.one_second d) _ H1) as [H3 H4].
  destruct (Z.eqb_spec
              (Selenium.scrollHeight d
                 (Selenium.sleep d (Selenium.one_second d)
                    (Selenium.scroll_pass d pause step turns p)))
              (Selenium.scrollHeight d p)) as [Heq|Hne]; [by eexists|].
  apply IH; [done|].
  pose proof (Hbound _ H3). pose proof (Hbound _ Hp). lia.
Qed.

End Growth.

(** X21.  If, on the pages the session can show, neither scrolling nor
    waiting ever lowers the height and the height stays within a bound, the
    loop ends: the function hands back a page source after at most as many
    passes as the bound exceeds the first height, plus one. *)
Theorem bounded_growth_terminates (d : Selenium.Driver)
    (pause : Selenium.duration d) (step : Z)
    (Inv : Selenium.page d → Prop) (bound : Z) (address : string)
    (p0 : Selenium.page d) (fuel : nat) :
  step ≠ 0%Z →
  Selenium.navigate d address = Some p0 →
  Inv p0 →
  (∀ p, Inv p →
     Inv (Selenium.scrollBy d step p) ∧
     (Selenium.scrollHeight d p
      <= Selenium.scrollHeight d (Selenium.scrollBy d step p))%Z) →
  (∀ t p, Inv p →
     Inv (Selenium.sleep d t p) ∧
     (Selenium.scrollHeight d p
      <= Selenium.scrollHeight d (Selenium.sleep d t p))%Z) →
  (∀ p, Inv p → (Selenium.scrollHeight d p <= bound)%Z) →
  Z.to_nat (bound - Selenium.scrollHeight d p0) + 1 ≤ fuel →
  ∃ page_source,
    Selenium.get_html_selenium d pause step fuel address
      = Some (Selenium.Fetched page_source).
Proof.
  intros Hstep Hnav Hp0 Hscroll Hsleep Hbound Hfuel.
  unfold Selenium.get_html_selenium. rewrite Hnav.
  destruct (scroll_loop_terminates d pause step Inv Hscroll Hsleep bound fuel
              p0 Hstep Hbound Hp0 Hfuel) as [p' ->].
  by eexists.
Qed.

Lemma scroll_pass_no_lower (d : Selenium.Driver)
    (pause : Selenium.duration d) (step : Z) (turns : nat)
    (p : Selenium.page d) :
  (∀ q, (Selenium.scrollHeight d q
         <= Selenium.scrollHeight d (Selenium.scrollBy d step q))%Z) →
  (∀ t q, (Selenium.scrollHeight d q
           < Selenium.scrollHeight d (Selenium.sleep d t q))%Z) →
  (Selenium.scrollHeight d p
   <= Selenium.scrollHeight d (Selenium.scroll_pass d pause step turns p))%Z.
Proof.
  intros Hscroll Hsleep. revert p.
  induction turns as [|turns IH]; intros p; simpl; [done|].
  pose proof (Hscroll p).
  pose proof (Hsleep pause (Selenium.scrollBy d step p)).
  pose proof (IH (Selenium.sleep d pause (Selenium.scrollBy d step p))). lia.
Qed.

(** X22.  If scrolling never lowers the height and every wait raises it, the
    loop has no end: however many passes are allowed, the function has not
    come back. *)
Theorem ever_growing_page_never_returns (d : Selenium.Driver)
    (pause : Selenium.duration d) (step : Z) (address : string)
    (p0 : Selenium.page d) :
  step ≠ 0%Z →
  Selenium.navigate d address = Some p0 →
  (∀ p, (Selenium.scrollHeight d p
         <= Selenium.scrollHeight d (Selenium.scrollBy d step p))%Z) →
  (∀ t p, (Selenium.scrollHeight d p
           < Selenium.scrollHeight d (Selenium.sleep d t p))%Z) →
  ∀ fuel, Selenium.get_html_selenium d pause step fuel address = None.
Proof.
  intros Hstep Hnav Hscroll Hsleep fuel.
  unfold Selenium.get_html_selenium. rewrite Hnav.
  assert (Hloop : ∀ p,
    Selenium.scroll_loop d pause step fuel (Selenium.scrollHeight d p) p
    = None); [|by rewrite Hloop].
  induction fuel as [|fuel IH]; intros p; [done|]. simpl.
  destruct (range_len_some (Selenium.scrollHeight d p) step Hstep)
    as [turns ->].
  pose proof (scroll_pass_no_lower d pause step turns p Hscroll Hsleep).
  pose proof (Hsleep (Selenium.one_second d)
                (Selenium.scroll_pass d pause step turns p)).
  destruct (Z.eqb_spec
              (Selenium.scrollHeight d
                 (Selenium.sleep d (Selenium.one_second d)
                    (Selenium.scroll_pass d pause step turns p)))
              (Selenium.scrollHeight d p)); [lia|].
  apply IH.
Qed.

(** ** The name of the exported file *)

Lemma digit_inj (a b : N) :
  Timestamp.digit a = Timestamp.digit b → (a mod 10 = b mod 10)%N.
Proof.
  unfold Timestamp.digit. intros H.
  apply (f_equal N_of_ascii) in H.
  pose proof (N.mod_upper_bound a 10 ltac:(done)).
  pose proof (N.mod_upper_bound b 10 ltac:(done)).
  rewrite !N_ascii_embedding in H by lia. lia.
Qed.

Lemma two_digits_inj (a b : N) :
  (a < 100 → b < 100 →
   (a / 10) mod 10 = (b / 10) mod 10 → a mod 10 = b mod 10 → a = b)%N.
Proof.
  intros Ha Hb H1 H0.
  assert (a / 10 < 10)%N by (apply N.Div0.div_lt_upper_bound; lia).
  assert (b / 10 < 10)%N by (apply N.Div0.div_lt_upper_bound; lia).
  rewrite !N.mod_small in H1 by assumption.
  rewrite (N.div_mod' a 10), (N.div_mod' b 10). lia.
Qed.

Lemma four_digits_inj (a b : N) :
  (a < 10000 → b < 10000 →
   (a / 1000) mod 10 = (b / 1000) mod 10 →
   (a / 100) mod 10 = (b / 100) mod 10 →
   (a / 10) mod 10 = (b / 10) mod 10 → a mod 10 = b mod 10 → a = b)%N.
Proof.
  intros Ha Hb H3 H2 H1 H0.
  assert (Hd : ∀ n : N,
    (n / 100 = n / 10 / 10 ∧ n / 1000 = n / 10 / 10 / 10)%N).
  { intros n. rewrite !N.Div0.div_div. split; reflexivity. }
  destruct (Hd a) as [Ea2 Ea3]. destruct (Hd b) as [Eb2 Eb3].
  rewrite Ea2, Eb2 in H2. rewrite Ea3, Eb3 in H3.
  assert (a / 10 / 10 / 10 < 10)%N.
  { rewrite <- Ea3. apply N.Div0.div_lt_upper_bound. lia. }
  assert (b / 10 / 10 / 10 < 10)%N.
  { rewrite <- Eb3. apply N.Div0.div_lt_upper_bound. lia. }
  rewrite !N.mod_small in H3 by assumption.
  pose proof (N.div_mod' a 10). pose proof (N.div_mod' b 10).
  pose proof (N.div_mod' (a / 10) 10). pose proof (N.div_mod' (b / 10) 10).
  pose proof (N.div_mod' (a / 10 / 10) 10).
  pose proof (N.div_mod' (b / 10 / 10) 10).
  lia.
Qed.

(** X23.  Two exports get the same file name exactly when their clock
    readings agree to the second: within one second a later export writes
    over an earlier one, and otherwise the names differ. *)
Theorem file_name_same_second (t1 t2 : Timestamp.datetime) :
  Timestamp.valid t1 → Timestamp.valid t2 →
  Timestamp.file_name t1 = Timestamp.file_name t2 ↔ t1 = t2.
Proof.
  intros V1 V2. split; [|by intros ->].
  destruct t1 as [y1 mo1 d1 h1 mi1 s1], t2 as [y2 mo2 d2 h2 mi2 s2].
  unfold Timestamp.valid in V1, V2. cbn in V1, V2.
  unfold Timestamp.file_name, Timestamp.strftime, Timestamp.pad4,
    Timestamp.pad2.
  cbn [Timestamp.year Timestamp.month Timestamp.day Timestamp.hour
       Timestamp.minute Timestamp.second String.append].
  intros H. injection H as Hy3 Hy2 Hy1 Hy0 Hmo1 Hmo0 Hd1 Hd0 Hh1 Hh0
    Hmi1 Hmi0 Hs1 Hs0.
  apply digit_inj in Hy3, Hy2, Hy1, Hy0, Hmo1, Hmo0, Hd1, Hd0, Hh1, Hh0,
    Hmi1, Hmi0, Hs1, Hs0.
  assert (y1 = y2) as -> by (apply four_digits_inj; lia).
  assert (mo1 = mo2) as -> by (apply two_digits_inj; lia).
  assert (d1 = d2) as -> by (apply two_digits_inj; lia).
  assert (h1 = h2) as -> by (apply two_digits_inj; lia).
  assert (mi1 = mi2) as -> by (apply two_digits_inj; lia).
  assert (s1 = s2) as -> by (apply two_digits_inj; lia).
  done.
Qed.

(** ** The further properties at sample inputs *)

Lemma fetch_failure_changes_nothing_witness :
  let env := {| get_html_selenium := fun _ => Raise WebDriverException;
                BeautifulSoup := fun _ => Sample.no_results;
                uuid4 := "3f2b" |} in
  main env "shoes" 10 Sample.fresh = (Some Failure, Sample.fresh).
Proof.
  intros env.
  exact (fetch_failure_changes_nothing env "shoes" 10 Sample.fresh
           WebDriverException eq_refl).
Defined.

Lemma successful_run_trace_witness :
  let env := Sample.env (Sample.page Sample.four_tiles) in
  fst (main env "shirts" 10 Sample.fresh) = Some Success ∧
  fs (snd (main env "shirts" 10 Sample.fresh)) !! temp_path env = None ∧
  ∃ products,
    new_events Sample.fresh (snd (main env "shirts" 10 Sample.fresh)) =
    [ Wrote (temp_path env); Removed (temp_path env);
      Exported products (format_workbook (DataFrame products)) ].
Proof.
  intros env.
  assert (Hok : fst (main env "shirts" 10 Sample.fresh) = Some Success)
    by (vm_compute; reflexivity).
  exact (conj Hok
           (successful_run_trace env "shirts" "<html>" 10 Sample.fresh
              eq_refl Hok)).
Defined.

Lemma failed_extraction_keeps_stored_page_witness :
  let env := Sample.env (Sample.page [Sample.broken_rating "caps/5"]) in
  let w := stored env "<html>" Sample.fresh in
  fs w !! temp_path env = Some "<html>" ∧
  (scrape_products env (temp_path env) 10 w = (Ok PyNone, w) ∨
   scrape_products env (temp_path env) 10 w = (Raise UnboundLocalError, w)).
Proof.
  intros env w. split; [reflexivity|].
  apply (failed_extraction_keeps_stored_page env (temp_path env) "<html>"
           10 w eq_refl).
  right.
  exists (Sample.container [Sample.broken_rating "caps/5"]), [],
    AttributeError.
  split_and!; [reflexivity|reflexivity|by right].
Defined.

Lemma text_node_fails_run_witness :
  let cs := Sample.four_tiles ++ [NavigableString " "] in
  let env := Sample.env (Sample.page cs) in
  for_products Sample.four_tiles [] = (Sample.four_records, None) ∧
  fst (main env "shirts" 5 Sample.fresh) = Some Failure ∧
  exported (new_events Sample.fresh (snd (main env "shirts" 5 Sample.fresh)))
    = [].
Proof.
  intros cs env. split; [reflexivity|].
  exact (text_node_fails_run env "shirts" "<html>" " " 5 Sample.fresh
           (Sample.container cs) Sample.four_tiles [] Sample.four_records
           eq_refl eq_refl eq_refl eq_refl).
Defined.

Lemma anchor_without_href_fails_run_witness :
  let product := Tag "li" ["product-base"] ∅ [ Tag "a" [] ∅ [] ] in
  let cs := Sample.four_tiles ++ [product] in
  let env := Sample.env (Sample.page cs) in
  loop_body product = Raise TypeError ∧
  fst (main env "shirts" 5 Sample.fresh) = Some Failure ∧
  exported (new_events Sample.fresh (snd (main env "shirts" 5 Sample.fresh)))
    = [].
Proof.
  intros product cs env.
  exact (anchor_without_href_fails_run env "shirts" "<html>" 5 Sample.fresh
           (Sample.container cs) product (Tag "a" [] ∅ [])
           Sample.four_tiles [] Sample.four_records ""
           eq_refl eq_refl eq_refl eq_refl
           (ex_intro _ _ (ex_intro _ _ (ex_intro _ _ (ex_intro _ _ eq_refl))))
           eq_refl eq_refl eq_refl).
Defined.

Lemma zero_count_exports_nothing_witness :
  let env := Sample.env (Sample.page Sample.four_tiles) in
  fst (main env "shirts" 0 Sample.fresh) = Some Success ∧
  exported (new_events Sample.fresh (snd (main env "shirts" 0 Sample.fresh)))
    = [[]].
Proof.
  intros env.
  exact (zero_count_exports_nothing env "shirts" "<html>" Sample.fresh
           (Sample.container Sample.four_tiles) eq_refl eq_refl).
Defined.

Lemma started_run_has_valid_input_witness :
  let env := Sample.env (Sample.page Sample.four_tiles) in
  let run := Input.script (Some 4300) env "shirts" "003" Sample.fresh in
  run = (Input.Finished (Some Success), snd run) ∧
  "shirts" ≠ "" ∧ Input.isdigit "shirts" = false ∧
  ∃ n : Z,
    (1 <= n)%Z ∧ main env "shirts" n Sample.fresh = (Some Success, snd run) ∧
    (("003" = "" ∧ n = 10%Z) ∨
     (Input.isdigit "003" = true ∧ Input.int (Some 4300) "003" = Some n)).
Proof.
  intros env run.
  assert (Hrun : run = (Input.Finished (Some Success), snd run))
    by (vm_compute; reflexivity).
  exact (conj Hrun
           (started_run_has_valid_input (Some 4300) env "shirts" "003"
              Sample.fresh (snd run) (Some Success) Hrun)).
Defined.

Lemma refused_input_changes_nothing_witness :
  let env := Sample.env (Sample.page Sample.four_tiles) in
  (∀ message,
     fst (Input.script None env "2024" "5" Sample.fresh)
       ≠ Input.Finished message) ∧
  snd (Input.script None env "2024" "5" Sample.fresh) = Sample.fresh.
Proof.
  intros env.
  assert (H : ∀ message,
    fst (Input.script None env "2024" "5" Sample.fresh)
      ≠ Input.Finished message) by (intros message; discriminate).
  exact (conj H
           (refused_input_changes_nothing None env "2024" "5" Sample.fresh H)).
Defined.

Lemma blank_count_is_ten_witness :
  let env := Sample.env (Sample.page Sample.four_tiles) in
  Input.script (Some 4300) env "shirts" "" Sample.fresh =
  Input.script (Some 4300) env "shirts" "10" Sample.fresh.
Proof.
  intros env.
  apply (blank_count_is_ten (Some 4300) env "shirts" Sample.fresh).
  intros l [= <-]. lia.
Defined.

Lemma superscript_count_crashes_witness :
  let env := Sample.env (Sample.page Sample.four_tiles) in
  let count := String (ascii_of_nat 178) "" in
  Input.isdigit count = true ∧
  Input.script None env "shirts" count Sample.fresh
    = (Input.UncaughtValueError, Sample.fresh).
Proof.
  intros env count. split; [reflexivity|].
  apply (superscript_count_crashes None env "shirts" count Sample.fresh);
    [discriminate|reflexivity..].
Defined.

Lemma count_below_one_is_zero_witness :
  let env := Sample.env (Sample.page Sample.four_tiles) in
  Input.script None env "shirts" "00" Sample.fresh
    = (Input.Quit Input.CountBelowOne, Sample.fresh) ∧
  Input.isdigit "00" = true ∧ Input.int None "00" = Some 0%Z ∧
  Sample.fresh = Sample.fresh.
Proof.
  intros env.
  exact (conj eq_refl
           (count_below_one_is_zero None env "shirts" "00" Sample.fresh
              Sample.fresh eq_refl)).
Defined.

Lemma pass_covers_height_witness :
  (0 < 300)%Z ∧
  ∃ turns,
    Selenium.range_len 1000 300 = Some turns ∧
    (1000 <= Z.of_nat turns * 300)%Z ∧
    ((0 <= 1000)%Z → (Z.of_nat turns * 300 < 1000 + 300)%Z) ∧
    ((1000 <= 0)%Z → turns = 0).
Proof. exact (conj eq_refl (pass_covers_height 1000 300 eq_refl)). Defined.

Lemma more_passes_same_answer_witness :
  Selenium.get_html_selenium (Selenium.lazy_driver 5000 1000) tt 300 4
    "https://www.myntra.com/shirts"
    = Some (Selenium.Fetched "<html>all</html>") ∧
  4 ≤ 9 ∧
  Selenium.get_html_selenium (Selenium.lazy_driver 5000 1000) tt 300 9
    "https://www.myntra.com/shirts"
    = Some (Selenium.Fetched "<html>all</html>").
Proof.
  assert (Hle : 4 ≤ 9) by lia.
  exact (conj eq_refl (conj Hle
           (more_passes_same_answer (Selenium.lazy_driver 5000 1000) tt 300
              4 9 "https://www.myntra.com/shirts"
              (Selenium.Fetched "<html>all</html>") eq_refl Hle))).
Defined.

Lemma fetched_page_has_settled_witness :
  let d := Selenium.lazy_driver 5000 1000 in
  Selenium.get_html_selenium d tt 300 4 "https://www.myntra.com/shirts"
    = Some (Selenium.Fetched "<html>all</html>") ∧
  ∃ q turns,
    Selenium.range_len (Selenium.scrollHeight d q) 300 = Some turns ∧
    Selenium.scrollHeight d
      (Selenium.sleep d (Selenium.one_second d)
         (Selenium.scroll_pass d tt 300 turns q))
      = Selenium.scrollHeight d q ∧
    "<html>all</html>" =
      Selenium.page_source d
        (Selenium.sleep d (Selenium.one_second d)
           (Selenium.scroll_pass d tt 300 turns q)).
Proof.
  intros d.
  exact (conj eq_refl
           (fetched_page_has_settled d tt 300 4
              "https://www.myntra.com/shirts" "<html>all</html>" eq_refl)).
Defined.

Lemma bounded_growth_terminates_witness :
  ∃ page_source,
    Selenium.get_html_selenium (Selenium.lazy_driver 5000 1000) tt 300 4001
      "https://www.myntra.com/shirts"
    = Some (Selenium.Fetched page_source).
Proof.
  apply (bounded_growth_terminates (Selenium.lazy_driver 5000 1000) tt 300
           (fun p => (Selenium.loaded p <= 5000)%Z) 5000
           "https://www.myntra.com/shirts"
           {| Selenium.loaded := 1000; Selenium.position := 0 |}).
  - lia.
  - reflexivity.
  - simpl. lia.
  - intros p Hp. simpl. lia.
  - intros t p Hp. simpl.
    destruct (Selenium.loaded p <=? Selenium.position p)%Z; simpl; lia.
  - intros p Hp. simpl. lia.
  - simpl. lia.
Defined.

Lemma ever_growing_page_never_returns_witness :
  Selenium.get_html_selenium Selenium.endless_driver tt 300 1000
    "https://www.myntra.com/shirts" = None.
Proof.
  apply (ever_growing_page_never_returns Selenium.endless_driver tt 300
           "https://www.myntra.com/shirts" 1000%Z).
  - lia.
  - reflexivity.
  - intros p. simpl. lia.
  - intros t p. simpl. lia.
Defined.

Lemma file_name_same_second_witness :
  let t1 := {| Timestamp.year := 2026; Timestamp.month := 11;
               Timestamp.day := 4; Timestamp.hour := 9;
               Timestamp.minute := 5; Timestamp.second := 7 |} in
  let t2 := {| Timestamp.year := 2026; Timestamp.month := 11;
               Timestamp.day := 4; Timestamp.hour := 9;
               Timestamp.minute := 5; Timestamp.second := 8 |} in
  Timestamp.file_name t1 = "scraped_products_20261104_090507.xlsx" ∧
  (Timestamp.file_name t1 = Timestamp.file_name t2 ↔ t1 = t2).
Proof.
  intros t1 t2. split; [reflexivity|].
  apply (file_name_same_second t1 t2);
    unfold Timestamp.valid; simpl; lia.
Defined.
